(** * Zenodo deposition transactions: a shallow embedding of [deposit.py]

    The development follows the source file top to bottom:
    - JSON values and the Python operations the code applies to them
      (subscript, [dict.get], truthiness, [in]);
    - the pydantic models [Person], [DepositionMetadata], [Deposition] and
      their serialisation with [exclude_none=True];
    - the [httpx] session as a function of the requests sent so far;
    - a state-and-exception monad in which [Client] and
      [DepositionTransaction] methods are written statement by statement;
    - the lifecycle theorems. *)

From Stdlib Require Import ZArith.
From stdpp Require Import gmap strings list fin_maps.

Set Warnings "-register-all".
Local Open Scope Z_scope.

(** ** JSON values

    [response.json()] yields Python data built from [None], [bool], numbers,
    [str], [list] and [dict]; the code only ever inspects them through the
    operations below. Numbers are integers here (Zenodo ids are); no
    operation of the source looks inside a number except for truthiness. *)

Inductive json : Type :=
  | JNull
  | JBool (b : bool)
  | JNum (z : Z)
  | JStr (s : string)
  | JArr (l : list json)
  | JObj (m : gmap string json).

(** Python values that end up inside messages and URLs: JSON data or a
    [pathlib.Path]. A path is the list of its components. *)

Record Path := mkPath { parts : list string }.

(** [path.name]: the final component, the empty string when there is none. *)
Definition Path_name (p : Path) : string := List.last (parts p) "".

Inductive arg : Type :=
  | AVal (v : json)
  | APath (p : Path).

(** An f-string, kept as its literal pieces and substituted values. *)
Inductive frag : Type :=
  | Lit (s : string)
  | Sub (a : arg).

Definition fstring := list frag.

(** ** Exceptions and results *)

Inductive exn : Type :=
  | ValueError (msg : fstring)
  | KeyError (key : string)
  | TypeError
  | AttributeError (attr : string)
  | JSONDecodeError
  | OSError (p : Path)
  | TransportError (what : string)
  | HTTPStatusError (status : Z).

Inductive result (A : Type) : Type :=
  | Ok (a : A)
  | Raise (e : exn).

Arguments Ok {A} a.
Arguments Raise {A} e.

Definition is_Ok {A} (r : result A) : bool :=
  match r with Ok _ => true | Raise _ => false end.

(** [v[k]] for a string key [k]. *)
Definition getitem (v : json) (k : string) : result json :=
  match v with
  | JObj m => match m !! k with
              | Some x => Ok x
              | None => Raise (KeyError k)
              end
  | _ => Raise TypeError
  end.

(** [v.get(k)]: only dicts have the method; a missing key gives [None]. *)
Definition dict_get (v : json) (k : string) : result json :=
  match v with
  | JObj m => Ok (default JNull (m !! k))
  | _ => Raise (AttributeError "get")
  end.

(** [v is None] *)
Definition is_None (v : json) : bool :=
  match v with JNull => true | _ => false end.

(** [bool(v)] *)
Definition truthy (v : json) : bool :=
  match v with
  | JNull => false
  | JBool b => b
  | JNum z => negb (z =? 0)
  | JStr s => negb (String.eqb s "")
  | JArr l => match l with [] => false | _ => true end
  | JObj m => negb (bool_decide (m = ∅))
  end.

(** [v in (s1, s2, ...)] for a tuple of strings: only a string compares
    equal to a string. *)
Definition in_strs (v : json) (l : list string) : bool :=
  match v with
  | JStr s => bool_decide (s ∈ l)
  | _ => false
  end.

(** ** Pydantic models *)

(** What the code uses of [BaseModel]: the dump of an instance (with or
    without [exclude_none]) and the set of fields given to the constructor. *)
Class BaseModel (A : Type) := {
  model_dump : bool -> A -> gmap string json;
  model_fields_set : A -> gset string
}.

(** A field of type [str | None] in a dump. *)
Definition dump_optional (exclude_none : bool) (k : string) (v : option string)
    (m : gmap string json) : gmap string json :=
  match v with
  | Some s => <[k := JStr s]> m
  | None => if exclude_none then m else <[k := JNull]> m
  end.

Record Person := mkPerson {
  name : string;
  affiliation : option string;
  orcid : option string
}.

(** All three fields of [Person] are required: the constructor always
    receives them. *)
#[export] Instance Person_model : BaseModel Person := {
  model_dump exclude_none p :=
    dump_optional exclude_none "orcid" (orcid p)
      (dump_optional exclude_none "affiliation" (affiliation p)
         (<["name" := JStr (name p)]> ∅));
  model_fields_set _ := {["name"; "affiliation"; "orcid"]}
}.

Record DepositionMetadata := mkDepositionMetadata {
  upload_type : string;
  title : string;
  description : string;
  creators : list Person;
  access_right : string;
  license : string;
  version : string;
  doi : option string;
  prereserve_doi : bool;
  metadata_fields_set : gset string
}.

(** [DepositionMetadata(...)]: [doi] and [prereserve_doi] are keyword
    arguments with defaults [None] and [False]; an argument that is not
    passed is [None] here, and a passed [doi=None] is [Some None]. *)
Definition DepositionMetadata_init (upload_type title description : string)
    (creators : list Person) (access_right license version : string)
    (doi : option (option string)) (prereserve_doi : option bool)
    : DepositionMetadata :=
  {| upload_type := upload_type;
     title := title;
     description := description;
     creators := creators;
     access_right := access_right;
     license := license;
     version := version;
     doi := default None doi;
     prereserve_doi := default false prereserve_doi;
     metadata_fields_set :=
       {["upload_type"; "title"; "description"; "creators"; "access_right";
         "license"; "version"]}
       ∪ (match doi with Some _ => {["doi"]} | None => ∅ end)
       ∪ (match prereserve_doi with
          | Some _ => {["prereserve_doi"]}
          | None => ∅
          end) |}.

#[export] Instance DepositionMetadata_model : BaseModel DepositionMetadata := {
  model_dump exclude_none md :=
    <["prereserve_doi" := JBool (prereserve_doi md)]>
      (dump_optional exclude_none "doi" (doi md)
        (<["version" := JStr (version md)]>
          (<["license" := JStr (license md)]>
            (<["access_right" := JStr (access_right md)]>
              (<["creators" :=
                   JArr ((fun p => JObj (model_dump exclude_none p))
                           <$> creators md)]>
                (<["description" := JStr (description md)]>
                  (<["title" := JStr (title md)]>
                    (<["upload_type" := JStr (upload_type md)]> ∅))))))));
  model_fields_set := metadata_fields_set
}.

Record Deposition := mkDeposition { metadata : DepositionMetadata }.

#[export] Instance Deposition_model : BaseModel Deposition := {
  model_dump exclude_none d :=
    {["metadata" := JObj (model_dump exclude_none (metadata d))]};
  model_fields_set _ := {["metadata"]}
}.

(** [model.model_dump_json(exclude_none=True)]; the text is kept as the
    JSON value it denotes. *)
Definition model_dump_json `{BaseModel A} (exclude_none : bool) (m : A) : json :=
  JObj (model_dump exclude_none m).

(** ** The HTTP session *)

Inductive body : Type :=
  | Bytes (b : list Byte.byte)
  | JsonText (v : json).

Record Request := mkRequest {
  method : string;
  endpoint : fstring;
  content : option body;
  headers : gmap string string
}.

Record Response := mkResponse {
  status_code : Z;
  reason_phrase : string;
  payload : option json
}.

(** [response.is_success]: a 2xx status. *)
Definition is_success (r : Response) : bool :=
  (200 <=? status_code r) && (status_code r <=? 299).

(** [response.raise_for_status()] *)
Definition raise_for_status (r : Response) : result unit :=
  if is_success r then Ok tt else Raise (HTTPStatusError (status_code r)).

(** [response.json()]: fails on a body that is not JSON. *)
Definition Response_json (r : Response) : result json :=
  match payload r with
  | Some v => Ok v
  | None => Raise JSONDecodeError
  end.

(** [httpx.Client]: base URL, default headers, and the remote end as a
    function from the requests sent so far and the current request to what
    [request] returns or raises. *)
Record Session := mkSession {
  base_url : string;
  default_headers : gmap string string;
  transport : list Request -> Request -> result Response
}.

(** ** Logging *)

Inductive Level : Type := INFO | WARNING | ERROR.

Record LogRecord := mkLogRecord {
  level : Level;
  format : string;
  args : list arg
}.

(** ** The world outside the objects: requests sent, log records emitted,
    and the files [path.open("rb")] can read. *)

Record Env := mkEnv {
  sent : list Request;
  logged : list LogRecord;
  files : Path -> option (list Byte.byte)
}.

(** ** State and exceptions *)

Definition M (S A : Type) : Type := S -> result A * S.

Definition ret {S A} (a : A) : M S A := fun s => (Ok a, s).

Definition bind {S A B} (m : M S A) (k : A -> M S B) : M S B :=
  fun s => match m s with
           | (Ok a, s') => k a s'
           | (Raise e, s') => (Raise e, s')
           end.

Definition raise {S A} (e : exn) : M S A := fun s => (Raise e, s).

(** A computation that cannot touch the state: property reads, pure checks. *)
Definition lift {S A} (r : result A) : M S A := fun s => (r, s).

Notation "'let*' x ':=' m 'in' k" := (bind m (fun x => k))
  (at level 10, x pattern, m at level 100, k at level 200).
Notation "m ';;' k" := (bind m (fun _ => k))
  (at level 100, k at level 200, right associativity).

(** The world after one more log record, and after one more request. *)
Definition Env_log (e : Env) (r : LogRecord) : Env :=
  {| sent := sent e; logged := logged e ++ [r]; files := files e |}.

Definition Env_send (e : Env) (rq : Request) : Env :=
  {| sent := sent e ++ [rq]; logged := logged e; files := files e |}.

Definition log (lvl : Level) (fmt : string) (a : list arg) : M Env unit :=
  fun e => (Ok tt, Env_log e (mkLogRecord lvl fmt a)).

(** [self._session.request(...)]: the request goes out, then the remote
    end answers or the transport raises. *)
Definition Session_request (s : Session) (rq : Request) : M Env Response :=
  fun e => (transport s (sent e) rq, Env_send e rq).

(** [with path.open("rb") as file: file.read()] *)
Definition read_bytes (p : Path) : M Env (list Byte.byte) :=
  fun e => match files e p with
           | Some b => (Ok b, e)
           | None => (Raise (OSError p), e)
           end.

(** ** Objects *)

Inductive _State : Type := Pending | Committed | Aborted | Leaked.

#[export] Instance _State_eq_dec : EqDecision _State.
Proof. solve_decision. Defined.

(** [self._state.value] *)
Definition _State_value (s : _State) : string :=
  match s with
  | Pending => "pending"
  | Committed => "committed"
  | Aborted => "aborted"
  | Leaked => "leaked"
  end.

Record Client := mkClient { _session : Session }.

Record DepositionTransaction := mkDepositionTransaction {
  _client : Client;
  _deposition_json : json;
  _state : _State
}.

(** [DepositionTransaction.__init__] *)
Definition DepositionTransaction_init (client : Client) (deposition_json : json)
    : DepositionTransaction :=
  {| _client := client;
     _deposition_json := deposition_json;
     _state := Pending |}.

(** *** Properties of a transaction: reads of [self], no assignment. *)

Definition deposition_id (t : DepositionTransaction) : result json :=
  getitem (_deposition_json t) "id".

(** Python [None] is [JNull]. *)
Definition reserved_deposition_doi (t : DepositionTransaction) : result json :=
  match getitem (_deposition_json t) "metadata" with
  | Raise e => Raise e
  | Ok md =>
      match dict_get md "prereserve_doi" with
      | Raise e => Raise e
      | Ok obj => if is_None obj then Ok JNull else getitem obj "doi"
      end
  end.

Definition bucket_link (t : DepositionTransaction) : result json :=
  match getitem (_deposition_json t) "links" with
  | Raise e => Raise e
  | Ok links => getitem links "bucket"
  end.

Definition pending (t : DepositionTransaction) : bool :=
  bool_decide (_state t = Pending).

Definition committed (t : DepositionTransaction) : bool :=
  bool_decide (_state t = Committed).

Definition aborted (t : DepositionTransaction) : bool :=
  bool_decide (_state t = Aborted).

Definition leaked (t : DepositionTransaction) : bool :=
  bool_decide (_state t = Leaked).

(** *** [Client] *)

Definition _get_zenodo_base_url (sandbox : bool) : string :=
  if sandbox then "https://sandbox.zenodo.org/api"
  else "https://zenodo.org/api".

(** [Client.__init__]; the remote end is the extra argument. *)
Definition Client_init (sandbox : bool) (token : string)
    (remote : list Request -> Request -> result Response) : Client :=
  {| _session :=
       {| base_url := _get_zenodo_base_url sandbox;
          default_headers :=
            <["Authorization" := String.append "Bearer " token]>
              {["Content-Type" := "application/json"]};
          transport := remote |} |}.

Definition _request `{BaseModel A} (c : Client) (method : string)
    (endpoint : fstring) (content : option body)
    (headers : option (gmap string string)) (model : option A)
    : M Env Response :=
  let headers := default ∅ headers in
  let '(content, headers) :=
    match model with
    | Some m => (Some (JsonText (model_dump_json true m)),
                 <["Content-Type" := "application/json"]> headers)
    | None => (content, headers)
    end in
  Session_request (_session c) (mkRequest method endpoint content headers).

Definition get_depositions (c : Client) : M Env json :=
  let* response :=
    _request (A := Deposition) c "GET" [Lit "/deposit/depositions"]
      None None None in
  lift (raise_for_status response) ;;
  lift (Response_json response).

Definition get_deposition (c : Client) (deposition_id : json) : M Env json :=
  let* response :=
    _request (A := Deposition) c "GET"
      [Lit "/deposit/depositions/"; Sub (AVal deposition_id)]
      None None None in
  lift (raise_for_status response) ;;
  lift (Response_json response).

Definition start_new_deposition (c : Client) (metadata : DepositionMetadata)
    : M Env DepositionTransaction :=
  let* response :=
    _request c "POST" [Lit "/deposit/depositions"] None None
      (Some (mkDeposition metadata)) in
  lift (raise_for_status response) ;;
  let* js := lift (Response_json response) in
  let transaction := DepositionTransaction_init c js in
  let* i := lift (deposition_id transaction) in
  log INFO "Deposition started: %s" [AVal i] ;;
  ret transaction.

Definition continue_deposition (c : Client) (deposition_id' : json)
    : M Env DepositionTransaction :=
  let* deposition := get_deposition c deposition_id' in
  let* submitted := lift (getitem deposition "submitted") in
  let* stop :=
    if truthy submitted then ret true
    else let* st := lift (getitem deposition "state") in
         ret (in_strs st ["done"; "error"]) in
  if stop : bool then
    raise (ValueError [Lit "Cannot continue deposition ";
                        Sub (AVal deposition_id');
                        Lit ", the deposition is not in progress."])
  else
    let transaction := DepositionTransaction_init c deposition in
    let* i := lift (deposition_id transaction) in
    log INFO "Continuing deposition %s" [AVal i] ;;
    ret transaction.

Definition commit_deposition (c : Client) (deposition_id : json) : M Env unit :=
  let* response :=
    _request (A := Deposition) c "POST"
      [Lit "/deposit/depositions/"; Sub (AVal deposition_id);
       Lit "/actions/publish"]
      None None None in
  lift (raise_for_status response) ;;
  log INFO "Deposition committed: %s" [AVal deposition_id].

Definition abort_deposition (c : Client) (deposition_id : json) : M Env unit :=
  let* response :=
    _request (A := Deposition) c "DELETE"
      [Lit "/deposit/depositions/"; Sub (AVal deposition_id)]
      None None None in
  lift (raise_for_status response) ;;
  log WARNING "Deposition aborted: %s" [AVal deposition_id].

Definition add_file_to_deposition (c : Client) (bucket_link : json)
    (path : Path) (name : option string) : M Env Response :=
  let name := default (Path_name path) name in
  log INFO "Adding file to deposition on bucket link '%s': '%s' with name '%s'"
    [AVal bucket_link; APath path; AVal (JStr name)] ;;
  let* data := read_bytes path in
  let* response :=
    _request (A := Deposition) c "PUT"
      [Sub (AVal bucket_link); Lit "/"; Sub (AVal (JStr name))]
      (Some (Bytes data))
      (Some {["Content-Type" := "application/octet-stream"]})
      None in
  (if is_success response then
     log INFO "File successfully added: '%s'" [APath path]
   else
     log ERROR "Failed to add file to deposition: '%s' (%s %s)"
       [APath path; AVal (JNum (status_code response));
        AVal (JStr (reason_phrase response))]) ;;
  ret response.

(** *** [DepositionTransaction] methods

    A method runs on the object it is called on and the world around it. *)

Record Machine := mkMachine {
  self : DepositionTransaction;
  env : Env
}.

Definition get_self : M Machine DepositionTransaction :=
  fun m => (Ok (self m), m).

(** [self._state = s] *)
Definition with_state (t : DepositionTransaction) (s : _State)
    : DepositionTransaction :=
  {| _client := _client t;
     _deposition_json := _deposition_json t;
     _state := s |}.

Definition set_state (s : _State) : M Machine unit :=
  fun m => (Ok tt, {| self := with_state (self m) s; env := env m |}).

(** A call that only acts on the world: a [Client] method, the logger. *)
Definition in_env {A} (c : M Env A) : M Machine A :=
  fun m => match c (env m) with
           | (r, e') => (r, {| self := self m; env := e' |})
           end.

(** Reading a property of [self]. *)
Definition prop {A} (p : DepositionTransaction -> result A) : M Machine A :=
  fun m => (p (self m), m).

Definition commit : M Machine unit :=
  let* t := get_self in
  if negb (pending t) then
    let* i := prop deposition_id in
    in_env (log WARNING "Deposition %s is %s when committing."
              [AVal i; AVal (JStr (_State_value (_state t)))])
  else
    let* i := prop deposition_id in
    in_env (commit_deposition (_client t) i) ;;
    set_state Committed.

(** The three branches of [abort] log; the [leaked] and [aborted] ones
    return, the [committed] one falls through to the statements after the
    [if]. [go] records whether control reaches them. *)
Definition abort : M Machine unit :=
  let* t := get_self in
  let* go :=
    if committed t then
      let* i := prop deposition_id in
      in_env (log WARNING "Aborting deposition %s which has been committed."
                [AVal i]) ;;
      ret true
    else if leaked t then
      let* i := prop deposition_id in
      in_env (log WARNING
                "Deposition %s was leaked but abort was called; not aborting"
                [AVal i]) ;;
      ret false
    else if aborted t then
      let* i := prop deposition_id in
      in_env (log WARNING
                "Deposition %s was already aborted; not aborting again"
                [AVal i]) ;;
      ret false
    else ret true in
  if go : bool then
    let* i := prop deposition_id in
    in_env (abort_deposition (_client t) i) ;;
    set_state Aborted
  else ret tt.

(** The [ValueError] of [_expect_pending], with its f-string. *)
Definition not_pending_error (operation : string) (i : json) (s : _State) : exn :=
  ValueError [Lit "Cannot "; Sub (AVal (JStr operation));
              Lit " deposition "; Sub (AVal i);
              Lit " because the deposition has been ";
              Sub (AVal (JStr (_State_value s)))].

Definition _expect_pending (operation : string) : M Machine unit :=
  let* t := get_self in
  if negb (pending t) then
    let* i := prop deposition_id in
    raise (not_pending_error operation i (_state t))
  else ret tt.

Definition leak : M Machine unit :=
  _expect_pending "leak" ;;
  set_state Leaked.

Definition add_file (path : Path) (name : option string) : M Machine Response :=
  _expect_pending "add a file to" ;;
  let* t := get_self in
  let* link := prop bucket_link in
  in_env (add_file_to_deposition (_client t) link path name).

(** [__enter__] returns [self]. *)
Definition __enter__ : M Machine DepositionTransaction := get_self.

(** [__exit__(exc_type, exc_val, exc_tb)]: the arguments are not looked at. *)
Definition __exit__ (exc : option exn) : M Machine unit :=
  let* t := get_self in
  if negb (committed t) && negb (leaked t) then abort else ret tt.

(** [with transaction: body]. [__exit__] returns [None], so an exception
    of the body is re-raised after it; an exception of [__exit__] itself
    replaces it. *)
Definition with_transaction {A} (body : M Machine A) : M Machine A :=
  fun m =>
    match body m with
    | (r, m1) =>
        let exc := match r with Ok _ => None | Raise e => Some e end in
        match __exit__ exc m1 with
        | (Ok _, m2) => (r, m2)
        | (Raise e, m2) => (Raise e, m2)
        end
    end.

(** ** Callers

    A caller may invoke the four operations in any order and catch what they
    raise; [exec] is the object and world after such a run. *)

Inductive Op : Type :=
  | OpCommit
  | OpAbort
  | OpLeak
  | OpAddFile (path : Path) (name : option string).

Definition run_op (o : Op) : M Machine unit :=
  match o with
  | OpCommit => commit
  | OpAbort => abort
  | OpLeak => leak
  | OpAddFile path name => add_file path name ;; ret tt
  end.

Fixpoint exec (ops : list Op) (m : Machine) : Machine :=
  match ops with
  | [] => m
  | o :: ops' => exec ops' (snd (run_op o m))
  end.

(** The transitions of the lifecycle, and its terminal states. *)
Inductive transition : _State -> Op -> _State -> Prop :=
  | commit_from_pending : transition Pending OpCommit Committed
  | abort_from_pending : transition Pending OpAbort Aborted
  | abort_from_committed : transition Committed OpAbort Aborted
  | leak_from_pending : transition Pending OpLeak Leaked.

Definition terminal (s : _State) : Prop :=
  s = Committed \/ s = Aborted \/ s = Leaked.

(** Requests of one kind among those sent. *)
Definition is_delete (rq : Request) : bool := String.eqb (method rq) "DELETE".

Definition is_publish (rq : Request) : bool :=
  String.eqb (method rq) "POST" &&
  match List.last (endpoint rq) (Lit "") with
  | Lit s => String.eqb s "/actions/publish"
  | Sub _ => false
  end.

Definition abort_calls (e : Env) : nat := length (List.filter is_delete (sent e)).

Definition publish_calls (e : Env) : nat :=
  length (List.filter is_publish (sent e)).

(** The requests [abort_deposition] and [commit_deposition] send. *)
Definition delete_request (i : json) : Request :=
  mkRequest "DELETE" [Lit "/deposit/depositions/"; Sub (AVal i)] None ∅.

Definition publish_request (i : json) : Request :=
  mkRequest "POST"
    [Lit "/deposit/depositions/"; Sub (AVal i); Lit "/actions/publish"]
    None ∅.

(** ** The record shape and sample data *)

(** The deposition record as the code consumes it: [id], [state], a boolean
    [submitted], [links.bucket], and [metadata] whose [prereserve_doi], when
    there is one, is [null] or holds a [doi]. *)
Definition deposition_record (d : json) : bool :=
  match d with
  | JObj m =>
      bool_decide (is_Some (m !! "id"))
      && bool_decide (is_Some (m !! "state"))
      && match m !! "submitted" with Some (JBool _) => true | _ => false end
      && match m !! "links" with
         | Some (JObj l) => bool_decide (is_Some (l !! "bucket"))
         | _ => false
         end
      && match m !! "metadata" with
         | Some (JObj md) =>
             match md !! "prereserve_doi" with
             | None | Some JNull => true
             | Some (JObj p) => bool_decide (is_Some (p !! "doi"))
             | Some _ => false
             end
         | _ => false
         end
  | _ => false
  end.

(** A remote end that answers every request with the same status. *)
Definition always (status : Z) : list Request -> Request -> result Response :=
  fun _ _ => Ok (mkResponse status "" (Some JNull)).

(** A remote end that serves one record to every request. *)
Definition serving (d : json) : list Request -> Request -> result Response :=
  fun _ _ => Ok (mkResponse 200 "OK" (Some d)).

Definition empty_env : Env := mkEnv [] [] (fun _ => None).

Definition draft_with (submitted : bool) (state : string) : json :=
  JObj (<["id" := JNum 42]>
        (<["state" := JStr state]>
         (<["submitted" := JBool submitted]>
          (<["links" :=
               JObj {["bucket" := JStr "https://sandbox.zenodo.org/api/files/b"]}]>
           {["metadata" :=
               JObj {["prereserve_doi" :=
                        JObj {["doi" := JStr "10.5281/zenodo.123"]}]}]})))).

Definition draft : json := draft_with false "unsubmitted".

Definition obliging_client : Client := Client_init true "" (always 204).
Definition refusing_client : Client := Client_init true "" (always 403).

Definition machine_in (c : Client) (s : _State) : Machine :=
  mkMachine (mkDepositionTransaction c draft s) empty_env.

Definition citation_cff : Path := mkPath ["CITATION.cff"].

(** A client whose remote end serves [d] to every request. *)
Definition client_serving (d : json) : Client := Client_init true "" (serving d).

(** The request [get_deposition] sends. *)
Definition get_request (i : json) : Request :=
  mkRequest "GET" [Lit "/deposit/depositions/"; Sub (AVal i)] None ∅.

(** The request [start_new_deposition] sends. *)
Definition create_request (md : DepositionMetadata) : Request :=
  mkRequest "POST" [Lit "/deposit/depositions"]
    (Some (JsonText (JObj {["metadata" := JObj (model_dump true md)]})))
    {["Content-Type" := "application/json"]}.

(** The [ValueError] of [continue_deposition]. *)
Definition not_in_progress_error (i : json) : exn :=
  ValueError [Lit "Cannot continue deposition "; Sub (AVal i);
              Lit ", the deposition is not in progress."].

(** Metadata with an empty title, [doi=None] passed explicitly and
    [prereserve_doi] not passed; a creator without affiliation. *)
Definition anonymous : Person := mkPerson "" None None.

Definition bare_metadata : DepositionMetadata :=
  DepositionMetadata_init "software" "" "Testing uploading to Zenodo"
    [anonymous] "open" "BSD-3-Clause" "0.3" (Some None) None.

(** The two records of the reserved-DOI example. *)
Definition record_with_doi : json :=
  JObj {["metadata" :=
           JObj {["prereserve_doi" :=
                    JObj {["doi" := JStr "10.5281/zenodo.123"]}]}]}.

Definition record_without_doi : json := JObj {["metadata" := JObj ∅]}.

(** A world in which [CITATION.cff] exists and is empty. *)
Definition env_with_citation : Env :=
  mkEnv [] []
    (fun p => if bool_decide (parts p = ["CITATION.cff"]) then Some [] else None).

(** The request [add_file_to_deposition] sends for [citation_cff] on the
    bucket of [draft]. *)
Definition upload_request : Request :=
  mkRequest "PUT"
    [Sub (AVal (JStr "https://sandbox.zenodo.org/api/files/b")); Lit "/";
     Sub (AVal (JStr "CITATION.cff"))]
    (Some (Bytes []))
    {["Content-Type" := "application/octet-stream"]}.

(** ** Further sample data and vocabulary *)

(** A record without any entry, and a transaction wrapping it. *)
Definition blank_machine (s : _State) : Machine :=
  mkMachine (mkDepositionTransaction obliging_client (JObj ∅) s) empty_env.

(** The request [add_file_to_deposition] sends. *)
Definition put_request (link : json) (name : string) (data : list Byte.byte)
    : Request :=
  mkRequest "PUT" [Sub (AVal link); Lit "/"; Sub (AVal (JStr name))]
    (Some (Bytes data))
    {["Content-Type" := "application/octet-stream"]}.

(** The request [get_depositions] sends. *)
Definition list_request : Request :=
  mkRequest "GET" [Lit "/deposit/depositions"] None ∅.

(** The records [add_file_to_deposition] logs: before the upload, and after
    it according to the response. *)
Definition adding_record (link : json) (path : Path) (name : string)
    : LogRecord :=
  mkLogRecord INFO
    "Adding file to deposition on bucket link '%s': '%s' with name '%s'"
    [AVal link; APath path; AVal (JStr name)].

Definition upload_record (path : Path) (r : Response) : LogRecord :=
  if is_success r then
    mkLogRecord INFO "File successfully added: '%s'" [APath path]
  else
    mkLogRecord ERROR "Failed to add file to deposition: '%s' (%s %s)"
      [APath path; AVal (JNum (status_code r)); AVal (JStr (reason_phrase r))].

(** A record with a truthy [submitted] that is not a boolean, and no
    [state] at all. *)
Definition odd_record : json := JObj {["submitted" := JStr "yes"]}.

(** A remote end that accepts every request and answers with an empty
    object: a success status, but no [id] in the body. *)
Definition client_without_ids : Client := client_serving (JObj ∅).

(** The requests a transaction may send on its own behalf: publish or
    delete its deposition, put a file into its bucket. *)
Definition own_request (t : DepositionTransaction) (rq : Request) : Prop :=
  (exists i, deposition_id t = Ok i
             /\ (rq = publish_request i \/ rq = delete_request i))
  \/ (exists link name data,
        bucket_link t = Ok link /\ rq = put_request link name data).

(** One step of the world: at most one request more, which is the
    transaction's own; log records are only added; files are untouched. *)
Definition one_step (t : DepositionTransaction) (e e' : Env) : Prop :=
  (sent e' = sent e \/ exists rq, own_request t rq /\ sent e' = sent e ++ [rq])
  /\ logged e `prefix_of` logged e'
  /\ files e' = files e.


(** ** The two transaction blocks of [main] *)

(** [with <create> as transaction: body]: when creating the transaction
    raises, the block is not entered and there is nothing to exit. *)
Definition with_new {A} (create : M Env DepositionTransaction)
    (body : M Machine A) : M Env A :=
  fun e =>
    match create e with
    | (Raise x, e1) => (Raise x, e1)
    | (Ok t, e1) =>
        match with_transaction body (mkMachine t e1) with
        | (r, m) => (r, env m)
        end
    end.

(** The metadata literal of [main]. *)
Definition main_depo : DepositionMetadata :=
  DepositionMetadata_init "software" "Test Zenodo upload 3"
    "Testing uploading to Zenodo"
    [mkPerson "Jan-Lukas Wynen" (Some "European Spallation Source ERIC")
       (Some "0000-0002-3761-3201")]
    "open" "BSD-3-Clause" "0.3" None (Some true).

(** First block: start a deposition, read the reserved DOI and the id,
    leak. The block yields the two values read. *)
Definition main_reserve (client : Client) : M Env (json * json) :=
  with_new (start_new_deposition client main_depo)
    (let* doi := prop reserved_deposition_doi in
     let* depo_id := prop deposition_id in
     leak ;;
     ret (doi, depo_id)).

(** Second block: resume by id, upload [CITATION.cff], insist on a success
    status, leak. *)
Definition main_upload (client : Client) (depo_id : json) : M Env unit :=
  with_new (continue_deposition client depo_id)
    (let* r := add_file (mkPath ["CITATION.cff"]) None in
     lift (raise_for_status r) ;;
     leak).

(** A remote end that accepts everything except uploads: it serves [draft]
    to every request but answers PUT with 507. *)
Definition full_storage : list Request -> Request -> result Response :=
  fun _ rq => if String.eqb (method rq) "PUT"
              then Ok (mkResponse 507 "Insufficient Storage" None)
              else Ok (mkResponse 200 "OK" (Some draft)).

(** A remote end that creates drafts whose record has an id and nothing else. *)
Definition client_with_bare_ids : Client :=
  client_serving (JObj {["id" := JNum 42]}).
(** * Theorems *)

(** ** The two remote calls of the lifecycle, step by step *)

Lemma commit_deposition_eq (c : Client) (i : json) (e : Env) :
  commit_deposition c i e =
    match transport (_session c) (sent e) (publish_request i) with
    | Ok r =>
        if is_success r then
          (Ok tt, Env_log (Env_send e (publish_request i))
                    (mkLogRecord INFO "Deposition committed: %s" [AVal i]))
        else (Raise (HTTPStatusError (status_code r)),
              Env_send e (publish_request i))
    | Raise x => (Raise x, Env_send e (publish_request i))
    end.
Proof.
  unfold commit_deposition, _request, Session_request, bind, lift,
    raise_for_status, log, publish_request; simpl.
  destruct (transport _ _ _) as [r|x]; [|reflexivity].
  destruct (is_success r); reflexivity.
Qed.

Lemma abort_deposition_eq (c : Client) (i : json) (e : Env) :
  abort_deposition c i e =
    match transport (_session c) (sent e) (delete_request i) with
    | Ok r =>
        if is_success r then
          (Ok tt, Env_log (Env_send e (delete_request i))
                    (mkLogRecord WARNING "Deposition aborted: %s" [AVal i]))
        else (Raise (HTTPStatusError (status_code r)),
              Env_send e (delete_request i))
    | Raise x => (Raise x, Env_send e (delete_request i))
    end.
Proof.
  unfold abort_deposition, _request, Session_request, bind, lift,
    raise_for_status, log, delete_request; simpl.
  destruct (transport _ _ _) as [r|x]; [|reflexivity].
  destruct (is_success r); reflexivity.
Qed.

Lemma commit_deposition_sent c i e :
  sent (snd (commit_deposition c i e)) = sent e ++ [publish_request i].
Proof.
  rewrite commit_deposition_eq.
  destruct (transport _ _ _) as [r|x]; [destruct (is_success r)|]; reflexivity.
Qed.

Lemma abort_deposition_sent c i e :
  sent (snd (abort_deposition c i e)) = sent e ++ [delete_request i].
Proof.
  rewrite abort_deposition_eq.
  destruct (transport _ _ _) as [r|x]; [destruct (is_success r)|]; reflexivity.
Qed.

(** ** [commit] and [abort] by state *)

#[local] Arguments deposition_id : simpl never.
#[local] Arguments bucket_link : simpl never.
#[local] Arguments commit_deposition : simpl never.
#[local] Arguments abort_deposition : simpl never.
#[local] Arguments add_file_to_deposition : simpl never.

(** Expose the statements of a method body. *)
Ltac method_body :=
  unfold bind, ret, raise, lift, prop, get_self, set_state, in_env,
    pending, committed, aborted, leaked; simpl.

(** Case on the outcome of the remote call in the goal. *)
Ltac remote_outcome :=
  match goal with
  | |- context [commit_deposition ?c ?i ?e] =>
      destruct (commit_deposition c i e) as [[[]|?] ?]
  | |- context [abort_deposition ?c ?i ?e] =>
      destruct (abort_deposition c i e) as [[[]|?] ?]
  end.

Section ByState.

Context (t : DepositionTransaction) (e : Env).
Context (i : json) (Hi : deposition_id t = Ok i).

Lemma commit_pending :
  _state t = Pending ->
  commit (mkMachine t e) =
    match commit_deposition (_client t) i e with
    | (Ok _, e') => (Ok tt, mkMachine (with_state t Committed) e')
    | (Raise x, e') => (Raise x, mkMachine t e')
    end.
Proof.
  intros Hs. unfold commit. method_body. rewrite Hs. simpl. rewrite Hi.
  remote_outcome; reflexivity.
Qed.

Lemma commit_not_pending :
  _state t <> Pending ->
  commit (mkMachine t e) =
    (Ok tt,
     mkMachine t
       (Env_log e (mkLogRecord WARNING "Deposition %s is %s when committing."
                     [AVal i; AVal (JStr (_State_value (_state t)))]))).
Proof.
  intros Hs. unfold commit. method_body.
  rewrite bool_decide_eq_false_2 by done. simpl. rewrite Hi. reflexivity.
Qed.

(** From [Pending] and from [Committed] alike, [abort] reaches the delete
    request. *)
Lemma abort_proceeds :
  _state t = Pending \/ _state t = Committed ->
  abort (mkMachine t e) =
    let e0 :=
      if committed t then
        Env_log e (mkLogRecord WARNING
                     "Aborting deposition %s which has been committed."
                     [AVal i])
      else e in
    match abort_deposition (_client t) i e0 with
    | (Ok _, e') => (Ok tt, mkMachine (with_state t Aborted) e')
    | (Raise x, e') => (Raise x, mkMachine t e')
    end.
Proof.
  intros Hs. unfold abort. method_body.
  destruct Hs as [Hs|Hs]; rewrite Hs; simpl; rewrite ?Hi; simpl;
    rewrite ?Hi; remote_outcome; reflexivity.
Qed.

Lemma abort_declines :
  _state t = Leaked \/ _state t = Aborted ->
  abort (mkMachine t e) =
    (Ok tt,
     mkMachine t
       (Env_log e
          (mkLogRecord WARNING
             (if leaked t
              then "Deposition %s was leaked but abort was called; not aborting"
              else "Deposition %s was already aborted; not aborting again")
             [AVal i]))).
Proof.
  intros Hs. unfold abort. method_body.
  destruct Hs as [Hs|Hs]; rewrite Hs; simpl; rewrite Hi; reflexivity.
Qed.

End ByState.

(** ** The strict guard *)

Lemma _expect_pending_pending (operation : string) (t : DepositionTransaction)
    (e : Env) :
  _state t = Pending ->
  _expect_pending operation (mkMachine t e) = (Ok tt, mkMachine t e).
Proof.
  intros Hs. unfold _expect_pending, bind, get_self, pending. simpl.
  rewrite Hs. reflexivity.
Qed.

Lemma _expect_pending_not_pending (operation : string)
    (t : DepositionTransaction) (e : Env) :
  _state t <> Pending ->
  _expect_pending operation (mkMachine t e) =
    (match deposition_id t with
     | Ok i => Raise (not_pending_error operation i (_state t))
     | Raise x => Raise x
     end, mkMachine t e).
Proof.
  intros Hs. unfold _expect_pending, bind, get_self, prop, raise, pending.
  simpl. rewrite bool_decide_eq_false_2 by done. simpl.
  destruct (deposition_id t); reflexivity.
Qed.

Lemma leak_pending (t : DepositionTransaction) (e : Env) :
  _state t = Pending ->
  leak (mkMachine t e) = (Ok tt, mkMachine (with_state t Leaked) e).
Proof.
  intros Hs. unfold leak, bind. rewrite _expect_pending_pending by done.
  reflexivity.
Qed.

Lemma leak_not_pending (t : DepositionTransaction) (e : Env) :
  _state t <> Pending ->
  leak (mkMachine t e) = (fst (_expect_pending "leak" (mkMachine t e)),
                          mkMachine t e)
  /\ is_Ok (fst (leak (mkMachine t e))) = false.
Proof.
  intros Hs. unfold leak, bind. rewrite _expect_pending_not_pending by done.
  destruct (deposition_id t); split; reflexivity.
Qed.

Lemma add_file_not_pending (path : Path) (name : option string)
    (t : DepositionTransaction) (e : Env) :
  _state t <> Pending ->
  exists x, add_file path name (mkMachine t e) = (Raise x, mkMachine t e)
            /\ _expect_pending "add a file to" (mkMachine t e)
               = (Raise x, mkMachine t e).
Proof.
  intros Hs. unfold add_file, bind.
  rewrite _expect_pending_not_pending by done.
  destruct (deposition_id t); eauto.
Qed.

Lemma add_file_self (path : Path) (name : option string) (m : Machine) :
  self (snd (add_file path name m)) = self m.
Proof.
  destruct m as [t e]. destruct (decide (_state t = Pending)) as [Hs|Hs].
  - unfold add_file, bind. rewrite _expect_pending_pending by done.
    unfold get_self, prop, in_env. simpl.
    destruct (bucket_link t); [|reflexivity].
    destruct (add_file_to_deposition _ _ _ _ _); reflexivity.
  - destruct (add_file_not_pending path name t e Hs) as (x & -> & _).
    reflexivity.
Qed.

(** ** What one operation can do to the object *)

Lemma commit_self (m : Machine) :
  self (snd (commit m)) = self m
  \/ (_state (self m) = Pending /\ is_Ok (fst (commit m)) = true
      /\ self (snd (commit m)) = with_state (self m) Committed).
Proof.
  destruct m as [t e]. unfold commit, bind, get_self, prop, in_env, set_state,
    pending. simpl.
  destruct (decide (_state t = Pending)) as [Hs|Hs].
  - rewrite bool_decide_eq_true_2 by done. simpl.
    destruct (deposition_id t); [|by left]. simpl.
    destruct (commit_deposition _ _ _) as [[[]|x] e']; simpl; auto.
  - rewrite bool_decide_eq_false_2 by done. simpl.
    destruct (deposition_id t); by left.
Qed.

Lemma abort_self (m : Machine) :
  self (snd (abort m)) = self m
  \/ ((_state (self m) = Pending \/ _state (self m) = Committed)
      /\ is_Ok (fst (abort m)) = true
      /\ self (snd (abort m)) = with_state (self m) Aborted).
Proof.
  destruct m as [t e].
  unfold abort, bind, get_self, prop, in_env, set_state, ret,
    committed, leaked, aborted. simpl.
  destruct (_state t) eqn:Hs; simpl;
    destruct (deposition_id t) eqn:Hi; simpl; rewrite ?Hi; simpl; auto;
    try (destruct (abort_deposition _ _ _) as [[[]|x] e']; simpl; auto 10).
Qed.

Lemma leak_self (m : Machine) :
  self (snd (leak m)) = self m
  \/ (_state (self m) = Pending /\ self (snd (leak m)) = with_state (self m) Leaked).
Proof.
  destruct m as [t e]. destruct (decide (_state t = Pending)) as [Hs|Hs].
  - rewrite leak_pending by done. auto.
  - destruct (leak_not_pending t e Hs) as [-> _]. auto.
Qed.

Lemma run_op_transition (o : Op) (m : Machine) :
  let t' := self (snd (run_op o m)) in
  _client t' = _client (self m)
  /\ _deposition_json t' = _deposition_json (self m)
  /\ (_state t' = _state (self m) \/ transition (_state (self m)) o (_state t')).
Proof.
  destruct o as [| | |p n]; simpl.
  - destruct (commit_self m) as [->|(Hs & _ & ->)]; [auto|].
    simpl. rewrite Hs. repeat split; auto. right; constructor.
  - destruct (abort_self m) as [->|(Hs & _ & ->)]; [auto|].
    simpl. repeat split; auto. right. destruct Hs as [->| ->]; constructor.
  - destruct (leak_self m) as [->|(Hs & ->)]; [auto|].
    simpl. rewrite Hs. repeat split; auto. right; constructor.
  - assert (self (snd ((add_file p n;; ret tt) m)) = self m) as ->; auto.
    unfold bind, ret. pose proof (add_file_self p n m) as H.
    destruct (add_file p n m) as [[r|x] m']; exact H.
Qed.

Lemma exec_app (ops1 ops2 : list Op) (m : Machine) :
  exec (ops1 ++ ops2) m = exec ops2 (exec ops1 m).
Proof. revert m; induction ops1 as [|o ops1 IH]; intros m; simpl; auto. Qed.

Lemma abort_calls_send (e : Env) (i : json) :
  abort_calls (Env_send e (delete_request i)) = S (abort_calls e).
Proof.
  unfold abort_calls, Env_send. simpl.
  rewrite List.filter_app, List.length_app. simpl. lia.
Qed.

Lemma publish_calls_send (e : Env) (i : json) :
  publish_calls (Env_send e (publish_request i)) = S (publish_calls e).
Proof.
  unfold publish_calls, Env_send. simpl.
  rewrite List.filter_app, List.length_app. simpl. lia.
Qed.

Lemma abort_deposition_calls c i e :
  abort_calls (snd (abort_deposition c i e)) = S (abort_calls e).
Proof.
  rewrite <- (abort_calls_send e i). unfold abort_calls.
  rewrite abort_deposition_sent. reflexivity.
Qed.

Lemma commit_deposition_calls c i e :
  publish_calls (snd (commit_deposition c i e)) = S (publish_calls e).
Proof.
  rewrite <- (publish_calls_send e i). unfold publish_calls.
  rewrite commit_deposition_sent. reflexivity.
Qed.

(** ** Scope exit *)

Lemma exit_pending (exc : option exn) (t : DepositionTransaction) (e : Env) :
  _state t = Pending ->
  __exit__ exc (mkMachine t e) = abort (mkMachine t e).
Proof.
  intros Hs. unfold __exit__, bind, get_self, committed, leaked. simpl.
  rewrite Hs. reflexivity.
Qed.

Lemma exit_committed_or_leaked (exc : option exn) (t : DepositionTransaction)
    (e : Env) :
  _state t = Committed \/ _state t = Leaked ->
  __exit__ exc (mkMachine t e) = (Ok tt, mkMachine t e).
Proof.
  intros Hs. unfold __exit__, bind, get_self, committed, leaked. simpl.
  destruct Hs as [-> | ->]; reflexivity.
Qed.

(** The [with] statement runs [__exit__] on whatever the body left behind,
    whether the body returned or raised. *)
Lemma with_transaction_exit {A} (body : M Machine A) (m : Machine) :
  snd (with_transaction body m) =
    snd (__exit__ (match fst (body m) with Ok _ => None | Raise x => Some x end)
           (snd (body m))).
Proof.
  unfold with_transaction. destruct (body m) as [r m1]. simpl.
  destruct (__exit__ _ m1) as [[[]|x] m2]; reflexivity.
Qed.

(** ** Claims about the lifecycle *)

(** C1, as the code has it. On a [Committed] transaction (whose record
    carries an id) [abort] logs the warning "Aborting deposition %s which has
    been committed." and then does what it does from [Pending]: it sends the
    delete request through [Client.abort_deposition]; when that call returns
    the state becomes [Aborted], and when it raises the exception propagates
    and the state stays [Committed]. *)
Theorem abort_committed_sends_delete (t : DepositionTransaction) (e : Env)
    (i : json) :
  _state t = Committed -> deposition_id t = Ok i ->
  let warned :=
    Env_log e (mkLogRecord WARNING
                 "Aborting deposition %s which has been committed." [AVal i]) in
  abort (mkMachine t e) =
    match abort_deposition (_client t) i warned with
    | (Ok _, e') => (Ok tt, mkMachine (with_state t Aborted) e')
    | (Raise x, e') => (Raise x, mkMachine t e')
    end
  /\ sent (env (snd (abort (mkMachine t e)))) = sent e ++ [delete_request i]
  /\ abort_calls (env (snd (abort (mkMachine t e)))) = S (abort_calls e).
Proof.
  intros Hs Hi warned.
  assert (abort (mkMachine t e) =
            match abort_deposition (_client t) i warned with
            | (Ok _, e') => (Ok tt, mkMachine (with_state t Aborted) e')
            | (Raise x, e') => (Raise x, mkMachine t e')
            end) as Heq.
  { rewrite (abort_proceeds t e i) by auto. unfold committed.
    rewrite bool_decide_eq_true_2 by done. reflexivity. }
  split; [exact Heq|]. rewrite Heq.
  pose proof (abort_deposition_sent (_client t) i warned) as Hsent.
  pose proof (abort_deposition_calls (_client t) i warned) as Hcalls.
  destruct (abort_deposition _ _ _) as [[[]|x] e']; simpl in *; auto.
Qed.

Lemma abort_committed_sends_delete_witness :
  _state (self (snd (abort (machine_in obliging_client Committed)))) = Aborted
  /\ abort_calls (env (snd (abort (machine_in obliging_client Committed)))) = 1%nat.
Proof.
  destruct (abort_committed_sends_delete
              (mkDepositionTransaction obliging_client draft Committed)
              empty_env (JNum 42) eq_refl eq_refl) as (Heq & _ & Hcalls).
  split; [|exact Hcalls].
  unfold machine_in. rewrite Heq. reflexivity.
Defined.

(** C1 as stated fails: with a remote end that accepts the delete, [abort]
    on a [Committed] transaction sends it and leaves the state [Aborted]. *)
Lemma abort_committed_counterexample :
  _state (self (machine_in obliging_client Committed)) = Committed
  /\ sent (env (snd (abort (machine_in obliging_client Committed))))
     = [delete_request (JNum 42)]
  /\ _state (self (snd (abort (machine_in obliging_client Committed)))) = Aborted
  /\ ~ (abort_calls (env (snd (abort (machine_in obliging_client Committed))))
        = abort_calls (env (machine_in obliging_client Committed))
        /\ _state (self (snd (abort (machine_in obliging_client Committed))))
           = Committed).
Proof.
  repeat split; try reflexivity.
  intros [_ H]. vm_compute in H. discriminate H.
Qed.

(** C2, as the code has it. Once the state is terminal it stays terminal,
    and no sequence of operations changes it, with one exception: an [abort]
    moves [Committed] to [Aborted]. [Aborted] and [Leaked] are never left. *)
Theorem terminal_states_after (ops : list Op) (m : Machine) :
  terminal (_state (self m)) ->
  terminal (_state (self (exec ops m)))
  /\ (_state (self (exec ops m)) = _state (self m)
      \/ (_state (self m) = Committed
          /\ _state (self (exec ops m)) = Aborted
          /\ OpAbort ∈ ops)).
Proof.
  revert m. induction ops as [|o ops IH]; intros m Ht; simpl.
  - auto.
  - destruct (run_op_transition o m) as (_ & _ & Hstep). simpl in Hstep.
    set (m1 := snd (run_op o m)) in *.
    destruct Hstep as [Hsame|Hmove].
    + destruct (IH m1) as [Ht' Hs']; [rewrite Hsame; exact Ht|].
      split; [exact Ht'|]. rewrite Hsame in Hs'.
      destruct Hs' as [Hs'|(Hc & Ha & Hin)]; [left; exact Hs'|].
      right. repeat split; auto. apply elem_of_cons. right; exact Hin.
    + assert (o = OpAbort /\ _state (self m) = Committed
              /\ _state (self m1) = Aborted) as (-> & Hc & Ha).
      { unfold terminal in Ht. inversion Hmove as [Hp|Hp|Hp|Hp];
          rewrite <- Hp in Ht; try (destruct Ht as [?|[?|?]]; discriminate).
        auto. }
      destruct (IH m1) as [Ht' Hs']; [right; left; exact Ha|].
      split; [exact Ht'|]. right. repeat split; auto.
      * destruct Hs' as [Hs'|(Hc' & _)]; [rewrite Hs'; exact Ha|].
        rewrite Ha in Hc'. discriminate.
      * apply elem_of_cons. left; reflexivity.
Qed.

Lemma terminal_states_after_witness :
  terminal (_state (self (exec [OpCommit; OpLeak; OpAddFile citation_cff None;
                                OpAbort; OpCommit]
                            (machine_in obliging_client Leaked)))).
Proof.
  apply (terminal_states_after _ (machine_in obliging_client Leaked)).
  right; right; reflexivity.
Defined.

(** C2 as stated fails: [Committed] is terminal, and a following [abort]
    changes the state to [Aborted]. *)
Lemma terminal_state_left_counterexample :
  terminal (_state (self (exec [OpCommit] (machine_in obliging_client Pending))))
  /\ _state (self (exec [OpAbort]
                     (exec [OpCommit] (machine_in obliging_client Pending))))
     <> _state (self (exec [OpCommit] (machine_in obliging_client Pending))).
Proof.
  split; [left; reflexivity|]. vm_compute. discriminate.
Qed.

(** C3. On scope exit, whatever the exception information passed to
    [__exit__]: from [Pending] exactly one delete request goes out (one call
    of [Client.abort_deposition]); from [Committed] and from [Leaked]
    nothing happens at all, so no abort call is made. *)
Theorem exit_abort_calls (exc : option exn) (t : DepositionTransaction)
    (e : Env) (i : json) :
  deposition_id t = Ok i ->
  (_state t = Pending ->
     sent (env (snd (__exit__ exc (mkMachine t e))))
       = sent e ++ [delete_request i]
     /\ abort_calls (env (snd (__exit__ exc (mkMachine t e))))
        = S (abort_calls e))
  /\ (_state t = Committed \/ _state t = Leaked ->
        __exit__ exc (mkMachine t e) = (Ok tt, mkMachine t e)
        /\ abort_calls (env (snd (__exit__ exc (mkMachine t e))))
           = abort_calls e).
Proof.
  intros Hi. split.
  - intros Hs. rewrite exit_pending by done.
    rewrite (abort_proceeds t e i) by auto. unfold committed.
    rewrite bool_decide_eq_false_2 by (rewrite Hs; done). simpl.
    pose proof (abort_deposition_sent (_client t) i e) as Hsent.
    pose proof (abort_deposition_calls (_client t) i e) as Hcalls.
    destruct (abort_deposition _ _ _) as [[[]|x] e']; simpl in *; auto.
  - intros Hs. rewrite exit_committed_or_leaked by done. auto.
Qed.

Lemma exit_abort_calls_witness :
  abort_calls
    (env (snd (__exit__ (Some TypeError) (machine_in refusing_client Pending))))
  = 1%nat
  /\ __exit__ None (machine_in refusing_client Leaked)
     = (Ok tt, machine_in refusing_client Leaked).
Proof.
  split.
  - apply (proj1 (exit_abort_calls (Some TypeError)
                    (mkDepositionTransaction refusing_client draft Pending)
                    empty_env (JNum 42) eq_refl)).
    reflexivity.
  - apply (proj2 (exit_abort_calls None
                    (mkDepositionTransaction refusing_client draft Leaked)
                    empty_env (JNum 42) eq_refl)).
    right; reflexivity.
Defined.

(** C4. [leak] and [add_file] outside [Pending] raise the [ValueError] of
    [_expect_pending] and change nothing; [leak] from [Pending] moves to
    [Leaked]; and [leak] followed by [add_file] always ends in that
    [ValueError], with no request sent. The transaction's record carries an
    id, which the error message quotes. *)
Theorem leak_add_file_guard (t : DepositionTransaction) (e : Env) (i : json)
    (path : Path) (name : option string) :
  deposition_id t = Ok i ->
  (_state t <> Pending ->
     leak (mkMachine t e)
       = (Raise (not_pending_error "leak" i (_state t)), mkMachine t e)
     /\ add_file path name (mkMachine t e)
        = (Raise (not_pending_error "add a file to" i (_state t)),
           mkMachine t e))
  /\ (_state t = Pending ->
        leak (mkMachine t e) = (Ok tt, mkMachine (with_state t Leaked) e))
  /\ (exists operation m',
        (leak ;; add_file path name) (mkMachine t e)
          = (Raise (not_pending_error operation i (_state (self m'))), m')
        /\ _state (self m') <> Pending
        /\ env m' = e).
Proof.
  intros Hi.
  assert (forall t' : DepositionTransaction,
            deposition_id t' = Ok i -> _state t' <> Pending ->
            leak (mkMachine t' e)
              = (Raise (not_pending_error "leak" i (_state t')), mkMachine t' e)
            /\ add_file path name (mkMachine t' e)
               = (Raise (not_pending_error "add a file to" i (_state t')),
                  mkMachine t' e)) as Hguard.
  { intros t' Hi' Hs. unfold leak, add_file, bind.
    rewrite !_expect_pending_not_pending by done. rewrite Hi'. auto. }
  split; [apply Hguard; exact Hi|].
  split; [apply leak_pending|].
  destruct (decide (_state t = Pending)) as [Hs|Hs].
  - exists "add a file to", (mkMachine (with_state t Leaked) e).
    unfold bind at 1. rewrite leak_pending by done.
    destruct (Hguard (with_state t Leaked)) as [_ ->]; [exact Hi|done|].
    simpl. repeat split; done.
  - exists "leak", (mkMachine t e).
    unfold bind at 1. destruct (Hguard t Hi Hs) as [-> _].
    simpl. repeat split; done.
Qed.

Lemma leak_add_file_guard_witness :
  exists operation m',
    (leak ;; add_file citation_cff None) (machine_in obliging_client Pending)
      = (Raise (not_pending_error operation (JNum 42) (_state (self m'))), m')
    /\ _state (self m') <> Pending
    /\ env m' = empty_env.
Proof.
  apply (leak_add_file_guard
           (mkDepositionTransaction obliging_client draft Pending)
           empty_env (JNum 42) citation_cff None eq_refl).
Defined.

(** C5. From [Pending], [commit] sends exactly one publish request, and
    when [Client.commit_deposition] returns the state is [Committed]. From
    any other state [commit] returns normally, logs one warning, sends
    nothing and leaves the state alone. Hence a second [commit] after a
    successful one keeps the state [Committed] and publishes nothing. The
    transaction's record carries an id, which the request and the warning
    quote. *)
Theorem commit_once (t : DepositionTransaction) (e : Env) (i : json) :
  deposition_id t = Ok i ->
  (_state t = Pending ->
     sent (env (snd (commit (mkMachine t e)))) = sent e ++ [publish_request i]
     /\ publish_calls (env (snd (commit (mkMachine t e))))
        = S (publish_calls e)
     /\ (forall e', commit_deposition (_client t) i e = (Ok tt, e') ->
           commit (mkMachine t e)
             = (Ok tt, mkMachine (with_state t Committed) e')))
  /\ (_state t <> Pending ->
        commit (mkMachine t e)
          = (Ok tt,
             mkMachine t
               (Env_log e
                  (mkLogRecord WARNING "Deposition %s is %s when committing."
                     [AVal i; AVal (JStr (_State_value (_state t)))])))
        /\ publish_calls (env (snd (commit (mkMachine t e))))
           = publish_calls e)
  /\ (forall m1, _state t = Pending -> commit (mkMachine t e) = (Ok tt, m1) ->
        fst (commit m1) = Ok tt
        /\ _state (self (snd (commit m1))) = Committed
        /\ _state (self m1) = Committed
        /\ sent (env (snd (commit m1))) = sent (env m1)).
Proof.
  intros Hi. split; [|split].
  - intros Hs. rewrite (commit_pending t e i) by done.
    pose proof (commit_deposition_sent (_client t) i e) as Hsent.
    pose proof (commit_deposition_calls (_client t) i e) as Hcalls.
    destruct (commit_deposition _ _ _) as [[[]|x] e1]; simpl in *;
      repeat split; auto; intros e' He'; congruence.
  - intros Hs. rewrite (commit_not_pending t e i) by done. auto.
  - intros m1 Hs Hc. rewrite (commit_pending t e i) in Hc by done.
    destruct (commit_deposition _ _ _) as [[[]|x] e1]; [|discriminate].
    injection Hc as <-.
    rewrite (commit_not_pending (with_state t Committed) e1 i) by done.
    auto.
Qed.

Lemma commit_once_witness :
  fst (commit (snd (commit (machine_in obliging_client Pending)))) = Ok tt
  /\ _state (self (snd (commit (snd (commit (machine_in obliging_client Pending))))))
     = Committed
  /\ publish_calls
       (env (snd (commit (snd (commit (machine_in obliging_client Pending))))))
     = 1%nat.
Proof.
  destruct (commit_once (mkDepositionTransaction obliging_client draft Pending)
              empty_env (JNum 42) eq_refl) as (_ & _ & Htwice).
  destruct (Htwice (snd (commit (machine_in obliging_client Pending)))
              eq_refl eq_refl) as (Hr & Hs & _ & _).
  split; [exact Hr|]. split; [exact Hs|reflexivity].
Defined.

(** C10. When the remote call of [commit] or [abort] raises on a [Pending]
    transaction, the exception propagates and the transaction is untouched:
    its state is still [Pending]. *)
Theorem remote_failure_keeps_pending (t : DepositionTransaction) (e e' : Env)
    (i : json) (x : exn) :
  _state t = Pending -> deposition_id t = Ok i ->
  (commit_deposition (_client t) i e = (Raise x, e') ->
     commit (mkMachine t e) = (Raise x, mkMachine t e')
     /\ _state (self (snd (commit (mkMachine t e)))) = Pending)
  /\ (abort_deposition (_client t) i e = (Raise x, e') ->
        abort (mkMachine t e) = (Raise x, mkMachine t e')
        /\ _state (self (snd (abort (mkMachine t e)))) = Pending).
Proof.
  intros Hs Hi. split; intros Hcall.
  - rewrite (commit_pending t e i), Hcall by done. auto.
  - rewrite (abort_proceeds t e i) by auto. unfold committed.
    rewrite bool_decide_eq_false_2 by (rewrite Hs; done).
    simpl. rewrite Hcall. auto.
Qed.

Lemma remote_failure_keeps_pending_witness :
  commit (machine_in refusing_client Pending)
    = (Raise (HTTPStatusError 403),
       mkMachine (mkDepositionTransaction refusing_client draft Pending)
         (Env_send empty_env (publish_request (JNum 42))))
  /\ _state (self (snd (commit (machine_in refusing_client Pending)))) = Pending.
Proof.
  apply (proj1 (remote_failure_keeps_pending
                  (mkDepositionTransaction refusing_client draft Pending)
                  empty_env (Env_send empty_env (publish_request (JNum 42)))
                  (JNum 42) (HTTPStatusError 403) eq_refl eq_refl)).
  reflexivity.
Defined.

(** ** Resuming a deposition *)

#[local] Arguments get_deposition : simpl never.

Lemma deposition_record_inv (d : json) :
  deposition_record d = true ->
  exists (m : gmap string json) i st b,
    d = JObj m /\ m !! "id" = Some i /\ m !! "state" = Some st
    /\ m !! "submitted" = Some (JBool b)
    /\ (exists (l : gmap string json) bk,
          m !! "links" = Some (JObj l) /\ l !! "bucket" = Some bk)
    /\ (exists md : gmap string json,
          m !! "metadata" = Some (JObj md)
          /\ (md !! "prereserve_doi" = None
              \/ md !! "prereserve_doi" = Some JNull
              \/ exists (p : gmap string json) v,
                   md !! "prereserve_doi" = Some (JObj p)
                   /\ p !! "doi" = Some v)).
Proof.
  destruct d as [| | | | |m]; try discriminate. simpl.
  rewrite !andb_true_iff, !bool_decide_eq_true.
  intros [[[[[i Hi] [st Hst]] Hsub] Hlinks] Hmd].
  destruct (m !! "submitted") as [[|b| | | |]|] eqn:Hs; try discriminate.
  destruct (m !! "links") as [[| | | | |l]|] eqn:Hl; try discriminate.
  apply bool_decide_eq_true in Hlinks. destruct Hlinks as [bk Hbk].
  destruct (m !! "metadata") as [[| | | | |md]|] eqn:Hm; try discriminate.
  exists m, i, st, b. repeat split; auto.
  - exists l, bk. auto.
  - exists md. split; [exact Hm|].
    destruct (md !! "prereserve_doi") as [[| | | | |p]|]; try discriminate; auto.
    apply bool_decide_eq_true in Hmd. destruct Hmd as [v Hv].
    right; right. exists p, v. auto.
Qed.

Lemma in_strs_done_error (st : json) :
  in_strs st ["done"; "error"] = true <-> st = JStr "done" \/ st = JStr "error".
Proof.
  destruct st as [| | |s| |]; simpl;
    try (split; [discriminate|intros [?|?]; discriminate]).
  rewrite bool_decide_eq_true, !elem_of_cons, elem_of_nil.
  split.
  - intros [->|[->|[]]]; auto.
  - intros [H|H]; injection H as ->; auto.
Qed.

(** C6. For a fetched record of the consumed shape: when [submitted] is
    true or [state] is ["done"] or ["error"], [continue_deposition] raises
    its [ValueError] and nothing but the fetch has happened; otherwise it
    returns a transaction wrapping that record, in state [Pending]. *)
Theorem continue_deposition_guard (c : Client) (i : json) (e e' : Env)
    (d : json) :
  get_deposition c i e = (Ok d, e') -> deposition_record d = true ->
  (getitem d "submitted" = Ok (JBool true)
   \/ getitem d "state" = Ok (JStr "done")
   \/ getitem d "state" = Ok (JStr "error") ->
     continue_deposition c i e = (Raise (not_in_progress_error i), e'))
  /\ (~ (getitem d "submitted" = Ok (JBool true)
         \/ getitem d "state" = Ok (JStr "done")
         \/ getitem d "state" = Ok (JStr "error")) ->
        exists i',
          getitem d "id" = Ok i'
          /\ continue_deposition c i e
             = (Ok (DepositionTransaction_init c d),
                Env_log e' (mkLogRecord INFO "Continuing deposition %s"
                              [AVal i']))
          /\ _state (DepositionTransaction_init c d) = Pending
          /\ _deposition_json (DepositionTransaction_init c d) = d).
Proof.
  intros Hget Hrec.
  destruct (deposition_record_inv d Hrec)
    as (m & i' & st & b & -> & Hid & Hst & Hsub & _).
  assert (continue_deposition c i e =
            if b || in_strs st ["done"; "error"]
            then (Raise (not_in_progress_error i), e')
            else (Ok (DepositionTransaction_init c (JObj m)),
                  Env_log e' (mkLogRecord INFO "Continuing deposition %s"
                                [AVal i']))) as Heq.
  { unfold continue_deposition, bind at 1. rewrite Hget.
    unfold bind, lift, ret, raise, log, deposition_id. simpl.
    rewrite Hsub. simpl. destruct b; simpl; [reflexivity|].
    rewrite Hst. destruct (in_strs st _); simpl; [reflexivity|].
    rewrite Hid. reflexivity. }
  simpl. rewrite Hsub, Hst, Hid, Heq. split.
  - intros [H|H].
    + injection H as ->. reflexivity.
    + assert (in_strs st ["done"; "error"] = true) as ->.
      { apply in_strs_done_error.
        destruct H as [H|H]; injection H as ->; auto. }
      rewrite orb_true_r. reflexivity.
  - intros Hn. exists i'. split; [reflexivity|].
    destruct b; [exfalso; apply Hn; auto|].
    destruct (in_strs st ["done"; "error"]) eqn:Hin.
    + exfalso. apply Hn. apply in_strs_done_error in Hin.
      destruct Hin as [->| ->]; auto.
    + auto.
Qed.

Lemma continue_deposition_guard_witness :
  continue_deposition (client_serving (draft_with true "unsubmitted"))
    (JNum 42) empty_env
  = (Raise (not_in_progress_error (JNum 42)),
     Env_send empty_env (get_request (JNum 42)))
  /\ continue_deposition (client_serving (draft_with false "done"))
       (JNum 42) empty_env
     = (Raise (not_in_progress_error (JNum 42)),
        Env_send empty_env (get_request (JNum 42)))
  /\ exists i',
       getitem draft "id" = Ok i'
       /\ continue_deposition (client_serving draft) (JNum 42) empty_env
          = (Ok (DepositionTransaction_init (client_serving draft) draft),
             Env_log (Env_send empty_env (get_request (JNum 42)))
               (mkLogRecord INFO "Continuing deposition %s" [AVal i']))
       /\ _state (DepositionTransaction_init (client_serving draft) draft)
          = Pending
       /\ _deposition_json (DepositionTransaction_init (client_serving draft) draft)
          = draft.
Proof.
  split; [|split].
  - apply (proj1 (continue_deposition_guard
                    (client_serving (draft_with true "unsubmitted")) (JNum 42)
                    empty_env (Env_send empty_env (get_request (JNum 42)))
                    (draft_with true "unsubmitted") eq_refl eq_refl)).
    left; reflexivity.
  - apply (proj1 (continue_deposition_guard
                    (client_serving (draft_with false "done")) (JNum 42)
                    empty_env (Env_send empty_env (get_request (JNum 42)))
                    (draft_with false "done") eq_refl eq_refl)).
    right; left; reflexivity.
  - apply (proj2 (continue_deposition_guard
                    (client_serving draft) (JNum 42)
                    empty_env (Env_send empty_env (get_request (JNum 42)))
                    draft eq_refl eq_refl)).
    intros [H|[H|H]]; vm_compute in H; discriminate H.
Defined.

(** ** Request bodies *)

Lemma dump_optional_dom (exclude_none : bool) (k : string) (v : option string)
    (m : gmap string json) :
  dom (dump_optional exclude_none k v m)
  = (match v with
     | Some _ => {[k]}
     | None => if exclude_none then ∅ else {[k]}
     end) ∪ dom m.
Proof.
  unfold dump_optional. destruct v as [s|]; [apply dom_insert_L|].
  destruct exclude_none; [|apply dom_insert_L].
  symmetry. apply (left_id_L ∅ (∪)).
Qed.

Lemma start_new_deposition_sent (c : Client) (md : DepositionMetadata)
    (e : Env) :
  sent (snd (start_new_deposition c md e)) = sent e ++ [create_request md].
Proof.
  unfold start_new_deposition, _request, Session_request, bind, lift, ret,
    log, create_request. simpl.
  rewrite insert_empty.
  destruct (transport _ _ _) as [r|x]; [|reflexivity]. simpl.
  destruct (raise_for_status r); [|reflexivity].
  destruct (Response_json r) as [js|x]; [|reflexivity].
  destruct (deposition_id _); reflexivity.
Qed.

(** C7, as the code has it. The body is dumped with [exclude_none=True]:
    a field is left out exactly when its value is [None], whether it was
    passed to the constructor or not. So [doi] is the only field of the
    metadata that can be missing, [prereserve_doi] is always there (with
    its default [False] when it was not passed), every other field is there
    with its value even when that is the empty string or list, and a
    creator's [affiliation] and [orcid] are missing exactly when they are
    [None]. This is the body [start_new_deposition] sends. *)
Theorem body_omits_none_values (md : DepositionMetadata) (p : Person) :
  dom (model_dump true md)
  = {["upload_type"; "title"; "description"; "creators"; "access_right";
      "license"; "version"; "prereserve_doi"]}
    ∪ (match doi md with Some _ => {["doi"]} | None => ∅ end)
  /\ model_dump true md !! "title" = Some (JStr (title md))
  /\ model_dump true md !! "prereserve_doi" = Some (JBool (prereserve_doi md))
  /\ model_dump true md !! "doi" = JStr <$> doi md
  /\ model_dump true md !! "creators"
     = Some (JArr ((fun q => JObj (model_dump true q)) <$> creators md))
  /\ dom (model_dump true p)
     = {["name"]}
       ∪ (match affiliation p with Some _ => {["affiliation"]} | None => ∅ end)
       ∪ (match orcid p with Some _ => {["orcid"]} | None => ∅ end)
  /\ (forall (c : Client) (e : Env),
        sent (snd (start_new_deposition c md e))
        = sent e ++ [create_request md]).
Proof.
  repeat split.
  - cbn [model_dump DepositionMetadata_model].
    rewrite dom_insert_L, dump_optional_dom, !dom_insert_L, dom_empty_L.
    destruct (doi md); set_solver.
  - cbn [model_dump DepositionMetadata_model]. unfold dump_optional.
    destruct (doi md); by simplify_map_eq.
  - cbn [model_dump DepositionMetadata_model]. by simplify_map_eq.
  - cbn [model_dump DepositionMetadata_model]. unfold dump_optional.
    destruct (doi md); by simplify_map_eq.
  - cbn [model_dump DepositionMetadata_model]. unfold dump_optional.
    destruct (doi md); by simplify_map_eq.
  - cbn [model_dump Person_model].
    rewrite !dump_optional_dom, dom_insert_L, dom_empty_L.
    destruct (affiliation p), (orcid p); set_solver.
  - intros c e. apply start_new_deposition_sent.
Qed.

(** C7 as stated fails on both sides: [prereserve_doi] was not passed to
    the constructor and is in the body; [doi] was passed (as [None]) and is
    not; and the body sent by [start_new_deposition] is this dump. *)
Lemma unset_but_sent_counterexample :
  ("prereserve_doi" ∉ model_fields_set bare_metadata)
  /\ model_dump true bare_metadata !! "prereserve_doi" = Some (JBool false)
  /\ ("doi" ∈ model_fields_set bare_metadata)
  /\ model_dump true bare_metadata !! "doi" = None
  /\ ("affiliation" ∈ model_fields_set anonymous)
  /\ model_dump true anonymous !! "affiliation" = None
  /\ content (create_request bare_metadata)
     = Some (JsonText (JObj {["metadata" :=
                                JObj (model_dump true bare_metadata)]})).
Proof.
  split.
  { intros H. apply (bool_decide_pack _) in H. vm_compute in H. exact H. }
  split; [reflexivity|].
  split; [apply (bool_decide_unpack _); vm_compute; exact I|].
  split; [reflexivity|].
  split; [apply (bool_decide_unpack _); vm_compute; exact I|].
  split; reflexivity.
Qed.

(** ** Accessors *)

(** C8. When the record's metadata has no [prereserve_doi] entry,
    [reserved_deposition_doi] is [None]; when the entry is there and holds a
    [doi] string, it is that string. *)
Theorem reserved_doi_lookup (t : DepositionTransaction)
    (md : gmap string json) :
  getitem (_deposition_json t) "metadata" = Ok (JObj md) ->
  (md !! "prereserve_doi" = None -> reserved_deposition_doi t = Ok JNull)
  /\ (forall (p : gmap string json) (s : string),
        md !! "prereserve_doi" = Some (JObj p) -> p !! "doi" = Some (JStr s) ->
        reserved_deposition_doi t = Ok (JStr s)).
Proof.
  intros Hmd. unfold reserved_deposition_doi. rewrite Hmd. simpl. split.
  - intros ->. reflexivity.
  - intros p s -> Hdoi. simpl. rewrite Hdoi. reflexivity.
Qed.

Lemma reserved_doi_lookup_witness :
  reserved_deposition_doi
    (DepositionTransaction_init obliging_client record_without_doi) = Ok JNull
  /\ reserved_deposition_doi
       (DepositionTransaction_init obliging_client record_with_doi)
     = Ok (JStr "10.5281/zenodo.123").
Proof.
  split.
  - apply (proj1 (reserved_doi_lookup
                    (DepositionTransaction_init obliging_client record_without_doi)
                    ∅ eq_refl)).
    reflexivity.
  - apply (proj2 (reserved_doi_lookup
                    (DepositionTransaction_init obliging_client record_with_doi)
                    {["prereserve_doi" :=
                        JObj {["doi" := JStr "10.5281/zenodo.123"]}]}
                    eq_refl)
             {["doi" := JStr "10.5281/zenodo.123"]} "10.5281/zenodo.123");
      reflexivity.
Defined.

(** C9. On a transaction whose record has the consumed shape, reading the
    deposition id, the reserved DOI, the bucket link or one of the four
    state predicates returns a value and leaves the transaction and the
    world as they were. *)
Theorem accessors_read_only (m : Machine) :
  deposition_record (_deposition_json (self m)) = true ->
  (exists v, prop deposition_id m = (Ok v, m))
  /\ (exists v, prop reserved_deposition_doi m = (Ok v, m))
  /\ (exists v, prop bucket_link m = (Ok v, m))
  /\ prop (fun t => Ok (pending t)) m = (Ok (pending (self m)), m)
  /\ prop (fun t => Ok (committed t)) m = (Ok (committed (self m)), m)
  /\ prop (fun t => Ok (aborted t)) m = (Ok (aborted (self m)), m)
  /\ prop (fun t => Ok (leaked t)) m = (Ok (leaked (self m)), m).
Proof.
  intros Hrec.
  destruct (deposition_record_inv _ Hrec)
    as (r & i & st & b & Hr & Hid & _ & _ & (l & bk & Hl & Hbk)
        & (md & Hmd & Hdoi)).
  unfold prop, deposition_id, reserved_deposition_doi, bucket_link.
  rewrite Hr. simpl. rewrite Hid, Hl, Hmd. simpl. rewrite Hbk.
  repeat split; eauto.
  destruct Hdoi as [->|[->|(p & v & -> & Hv)]]; simpl; eauto.
  rewrite Hv. eauto.
Qed.

Lemma accessors_read_only_witness :
  (exists v, prop deposition_id (machine_in obliging_client Committed)
             = (Ok v, machine_in obliging_client Committed))
  /\ (exists v, prop reserved_deposition_doi (machine_in obliging_client Committed)
                = (Ok v, machine_in obliging_client Committed))
  /\ (exists v, prop bucket_link (machine_in obliging_client Committed)
                = (Ok v, machine_in obliging_client Committed)).
Proof.
  destruct (accessors_read_only (machine_in obliging_client Committed) eq_refl)
    as (Hid & Hdoi & Hlink & _).
  split; [exact Hid|]. split; [exact Hdoi|exact Hlink].
Defined.

(** Outside the consumed shape the three record accessors raise what the
    subscript raises, and still change nothing. *)
Lemma accessors_outside_shape (c : Client) (s : _State) (e : Env) :
  let m := mkMachine (mkDepositionTransaction c (JObj ∅) s) e in
  prop deposition_id m = (Raise (KeyError "id"), m)
  /\ prop reserved_deposition_doi m = (Raise (KeyError "metadata"), m)
  /\ prop bucket_link m = (Raise (KeyError "links"), m).
Proof. repeat split. Qed.

(** A transaction handed out by the [Client] is [Pending], wraps the record
    the remote end returned, and that record has an id. *)
Lemma start_new_deposition_pending (c : Client) (md : DepositionMetadata)
    (e e' : Env) (t : DepositionTransaction) :
  start_new_deposition c md e = (Ok t, e') ->
  _state t = Pending /\ _client t = c /\ is_Ok (deposition_id t) = true.
Proof.
  unfold start_new_deposition, bind, lift, ret, log.
  destruct (_request _ _ _ _ _ _ e) as [[r|x] e1]; [|discriminate].
  destruct (raise_for_status r); [|discriminate].
  destruct (Response_json r) as [js|x]; [|discriminate].
  destruct (deposition_id _) as [i|x] eqn:Hi; [|discriminate].
  intros H. injection H as <- _. rewrite Hi. auto.
Qed.

Lemma continue_deposition_pending (c : Client) (i : json) (e e' : Env)
    (t : DepositionTransaction) :
  continue_deposition c i e = (Ok t, e') ->
  _state t = Pending /\ _client t = c /\ is_Ok (deposition_id t) = true.
Proof.
  unfold continue_deposition, bind at 1.
  destruct (get_deposition c i e) as [[d|x] e1]; [|discriminate].
  unfold bind, lift, ret, raise, log.
  destruct (getitem d "submitted") as [sub|x]; [|discriminate].
  destruct (truthy sub); [discriminate|].
  destruct (getitem d "state") as [st|x]; [|discriminate].
  destruct (in_strs st _); [discriminate|].
  destruct (deposition_id _) as [i'|x] eqn:Hi; [|discriminate].
  intros H. injection H as <- _. rewrite Hi. auto.
Qed.

(** The [with] statement around any body: one abort call when the body
    leaves the transaction [Pending], none when it leaves it [Committed] or
    [Leaked]. *)
Lemma with_transaction_abort_calls {A} (body : M Machine A) (m : Machine)
    (i : json) :
  deposition_id (self (snd (body m))) = Ok i ->
  abort_calls (env (snd (with_transaction body m)))
  = match _state (self (snd (body m))) with
    | Pending => S (abort_calls (env (snd (body m))))
    | _ => abort_calls (env (snd (body m)))
    end.
Proof.
  intros Hi. rewrite with_transaction_exit.
  destruct (snd (body m)) as [t e] eqn:Hm. simpl in *.
  destruct (_state t) eqn:Hs.
  - rewrite exit_pending by done. rewrite (abort_proceeds t e i) by auto.
    unfold committed. rewrite bool_decide_eq_false_2 by (rewrite Hs; done).
    simpl. pose proof (abort_deposition_calls (_client t) i e) as Hcalls.
    destruct (abort_deposition _ _ _) as [[[]|x] e1]; exact Hcalls.
  - rewrite exit_committed_or_leaked by auto. reflexivity.
  - unfold __exit__, bind, get_self, committed, leaked. simpl. rewrite Hs.
    simpl. rewrite (abort_declines t e i) by auto. reflexivity.
  - rewrite exit_committed_or_leaked by auto. reflexivity.
Qed.

(** ** A run from start to finish *)

(** Add one file, commit, then abort, against a remote end that accepts
    everything: the upload and the publish request go out, the transaction
    reports committed and not pending, and the later abort sends the delete
    request. *)
Example add_file_commit_abort :
  let m1 := exec [OpAddFile citation_cff None; OpCommit]
              (mkMachine (DepositionTransaction_init obliging_client draft)
                 env_with_citation) in
  committed (self m1) = true
  /\ pending (self m1) = false
  /\ sent (env m1) = [upload_request; publish_request (JNum 42)]
  /\ sent (env (exec [OpAbort] m1))
     = [upload_request; publish_request (JNum 42); delete_request (JNum 42)].
Proof. repeat split; reflexivity. Qed.

(** The two [with] blocks of [main]: the first leaks, so leaving the block
    sends nothing; the second resumes by id. *)
Example leak_then_leave :
  with_transaction leak (machine_in refusing_client Pending)
  = (Ok tt,
     mkMachine (mkDepositionTransaction refusing_client draft Leaked) empty_env).
Proof. reflexivity. Qed.

(** * Further properties of the lifecycle *)

(** ** One operation in a settled state *)

Lemma abort_pending_ok (t : DepositionTransaction) (e : Env) (m' : Machine) :
  _state t = Pending -> abort (mkMachine t e) = (Ok tt, m') ->
  self m' = with_state t Aborted.
Proof.
  intros Hs. unfold abort. method_body. rewrite Hs. simpl.
  destruct (deposition_id t); [|discriminate]. simpl.
  remote_outcome; [|discriminate]. intros H. injection H as <-. reflexivity.
Qed.

Lemma run_op_settled (o : Op) (t : DepositionTransaction) (e : Env) :
  _state t = Leaked \/ _state t = Aborted
  \/ (_state t = Committed /\ o <> OpAbort) ->
  self (snd (run_op o (mkMachine t e))) = t
  /\ sent (env (snd (run_op o (mkMachine t e)))) = sent e.
Proof.
  intros Hs.
  assert (_state t <> Pending) as Hnp
    by (destruct Hs as [H|[H|[H _]]]; rewrite H; done).
  destruct o as [| | |p n]; simpl.
  - unfold commit. method_body. rewrite bool_decide_eq_false_2 by done. simpl.
    destruct (deposition_id t); auto.
  - unfold abort. method_body.
    destruct Hs as [Hs|[Hs|[_ Hs]]]; [| |done];
      rewrite Hs; simpl; destruct (deposition_id t); auto.
  - destruct (leak_not_pending t e Hnp) as [-> _]. auto.
  - unfold bind.
    destruct (add_file_not_pending p n t e Hnp) as (x & -> & _). auto.
Qed.

(** X1. After an [abort] that returned, a second [abort] returns too, sends
    nothing and leaves the state where the first one put it; over the two
    calls at most the one delete request of the first has gone out. *)
Theorem abort_twice (t : DepositionTransaction) (e : Env) (i : json)
    (m1 : Machine) :
  deposition_id t = Ok i ->
  abort (mkMachine t e) = (Ok tt, m1) ->
  fst (abort m1) = Ok tt
  /\ self (snd (abort m1)) = self m1
  /\ sent (env (snd (abort m1))) = sent (env m1)
  /\ (_state (self m1) = Aborted \/ _state (self m1) = Leaked)
  /\ length (logged (env (snd (abort m1)))) = S (length (logged (env m1))).
Proof.
  intros Hi H1.
  assert (_state (self m1) = Aborted \/ _state (self m1) = Leaked) as Hs1.
  { destruct (_state t) eqn:Hs.
    - rewrite (abort_proceeds t e i) in H1 by auto. revert H1.
      simpl. remote_outcome; [|discriminate].
      intros H; injection H as <-. auto.
    - rewrite (abort_proceeds t e i) in H1 by auto. revert H1.
      simpl. remote_outcome; [|discriminate].
      intros H; injection H as <-. auto.
    - rewrite (abort_declines t e i) in H1 by auto.
      injection H1 as <-. auto.
    - rewrite (abort_declines t e i) in H1 by auto.
      injection H1 as <-. auto. }
  assert (deposition_id (self m1) = Ok i) as Hi1.
  { destruct (abort_self (mkMachine t e)) as [Hsame|(_ & _ & Hmove)];
      rewrite H1 in *; simpl in *; [rewrite Hsame|rewrite Hmove]; exact Hi. }
  destruct m1 as [t1 e1]. simpl in *.
  rewrite (abort_declines t1 e1 i) by tauto. simpl.
  rewrite length_app. simpl. repeat split; auto. lia.
Qed.

Lemma abort_twice_witness :
  fst (abort (snd (abort (machine_in obliging_client Pending)))) = Ok tt
  /\ sent (env (snd (abort (snd (abort (machine_in obliging_client Pending))))))
     = [delete_request (JNum 42)].
Proof.
  destruct (abort_twice (mkDepositionTransaction obliging_client draft Pending)
              empty_env (JNum 42)
              (snd (abort (machine_in obliging_client Pending)))
              eq_refl eq_refl) as (Hr & _ & Hsent & _).
  split; [exact Hr|]. rewrite Hsent. reflexivity.
Defined.

(** X2. A transaction that is [Leaked] or [Aborted] never reaches the remote
    end again, whatever is called on it; a [Committed] one does not either
    as long as [abort] is not called. The object itself is left as it is. *)
Theorem settled_sends_nothing (ops : list Op) (m : Machine) :
  terminal (_state (self m)) ->
  (_state (self m) = Committed -> OpAbort ∉ ops) ->
  self (exec ops m) = self m /\ sent (env (exec ops m)) = sent (env m).
Proof.
  revert m. induction ops as [|o ops IH]; intros [t e] Ht Hab; simpl in *.
  - auto.
  - destruct (run_op_settled o t e) as [Hself Hsent].
    { destruct Ht as [Hc|[Ha|Hl]]; auto.
      right; right. split; [exact Hc|].
      intros ->. apply (Hab Hc). apply elem_of_cons; auto. }
    destruct (snd (run_op o (mkMachine t e))) as [t1 e1] eqn:Hm1.
    simpl in *. subst t1.
    destruct (IH (mkMachine t e1)) as [Hself' Hsent']; simpl; auto.
    { intros Hc Hin. apply (Hab Hc). apply elem_of_cons; auto. }
    rewrite Hself', Hsent'. auto.
Qed.

Lemma settled_sends_nothing_witness :
  sent (env (exec [OpAbort; OpCommit; OpAddFile citation_cff None; OpLeak]
               (machine_in obliging_client Leaked))) = [].
Proof.
  apply (settled_sends_nothing _ (machine_in obliging_client Leaked)).
  - right; right; reflexivity.
  - intros H. vm_compute in H. discriminate H.
Defined.

(** X3. No sequence of operations changes the client or the record a
    transaction wraps, so the deposition id, the bucket link and the
    reserved DOI it reports are the same before and after. *)
Theorem exec_keeps_record (ops : list Op) (m : Machine) :
  _client (self (exec ops m)) = _client (self m)
  /\ _deposition_json (self (exec ops m)) = _deposition_json (self m)
  /\ deposition_id (self (exec ops m)) = deposition_id (self m)
  /\ bucket_link (self (exec ops m)) = bucket_link (self m)
  /\ reserved_deposition_doi (self (exec ops m))
     = reserved_deposition_doi (self m).
Proof.
  assert (_client (self (exec ops m)) = _client (self m)
          /\ _deposition_json (self (exec ops m)) = _deposition_json (self m))
    as [Hc Hj].
  { revert m. induction ops as [|o ops IH]; intros m; simpl; [auto|].
    destruct (run_op_transition o m) as (Hc & Hj & _). simpl in Hc, Hj.
    destruct (IH (snd (run_op o m))) as [Hc' Hj']. split; congruence. }
  unfold deposition_id, bucket_link, reserved_deposition_doi.
  rewrite Hj. auto.
Qed.

(** X4. On a record without a readable [id], [commit] and [abort] raise what
    the subscript raises before anything is logged or sent, in every state;
    so do [leak] and [add_file] outside [Pending], where the error message
    needs the id. From [Pending], [leak] does not read the id and still
    moves to [Leaked]. *)
Theorem unreadable_id (t : DepositionTransaction) (e : Env) (x : exn)
    (path : Path) (name : option string) :
  deposition_id t = Raise x ->
  commit (mkMachine t e) = (Raise x, mkMachine t e)
  /\ abort (mkMachine t e) = (Raise x, mkMachine t e)
  /\ (_state t <> Pending ->
        leak (mkMachine t e) = (Raise x, mkMachine t e)
        /\ add_file path name (mkMachine t e) = (Raise x, mkMachine t e))
  /\ (_state t = Pending ->
        leak (mkMachine t e) = (Ok tt, mkMachine (with_state t Leaked) e)).
Proof.
  intros Hi. repeat split.
  - unfold commit. method_body. destruct (_state t); simpl; rewrite Hi;
      reflexivity.
  - unfold abort. method_body. destruct (_state t); simpl; rewrite Hi;
      reflexivity.
  - unfold leak, bind. rewrite _expect_pending_not_pending by done.
    rewrite Hi. reflexivity.
  - unfold add_file, bind. rewrite _expect_pending_not_pending by done.
    rewrite Hi. reflexivity.
  - apply leak_pending.
Qed.

Lemma unreadable_id_witness :
  commit (blank_machine Pending) = (Raise (KeyError "id"), blank_machine Pending)
  /\ abort (blank_machine Committed)
     = (Raise (KeyError "id"), blank_machine Committed).
Proof.
  assert (forall s, deposition_id
                      (mkDepositionTransaction obliging_client (JObj ∅) s)
                    = Raise (KeyError "id")) as Hid by reflexivity.
  destruct (unreadable_id
              (mkDepositionTransaction obliging_client (JObj ∅) Pending)
              empty_env (KeyError "id") citation_cff None (Hid Pending))
    as (Hc & _).
  destruct (unreadable_id
              (mkDepositionTransaction obliging_client (JObj ∅) Committed)
              empty_env (KeyError "id") citation_cff None (Hid Committed))
    as (_ & Ha & _).
  split; [exact Hc|exact Ha].
Defined.

(** ** The [with] statement *)

Lemma exit_ok_not_pending (exc : option exn) (m m' : Machine) :
  __exit__ exc m = (Ok tt, m') -> _state (self m') <> Pending.
Proof.
  destruct m as [t e]. destruct (_state t) eqn:Hs.
  - rewrite exit_pending by done. intros H.
    rewrite (abort_pending_ok t e m' Hs H). discriminate.
  - rewrite exit_committed_or_leaked by auto.
    intros H; injection H as <-. simpl. rewrite Hs. discriminate.
  - unfold __exit__, bind, get_self, committed, leaked. simpl. rewrite Hs.
    simpl. intros H.
    destruct (abort_self (mkMachine t e)) as [Hsame|([Hp|Hc] & _)];
      rewrite ?H in *; simpl in *; [rewrite Hsame, Hs; discriminate| |];
      congruence.
  - rewrite exit_committed_or_leaked by auto.
    intros H; injection H as <-. simpl. rewrite Hs. discriminate.
Qed.

(** X5. A [with] block returns normally only if its body did, with the body's
    value, and then the transaction is no longer [Pending]: it has been
    committed, leaked or aborted. *)
Theorem with_transaction_returns {A} (body : M Machine A) (m : Machine) (a : A) :
  fst (with_transaction body m) = Ok a ->
  fst (body m) = Ok a
  /\ _state (self (snd (with_transaction body m))) <> Pending.
Proof.
  unfold with_transaction. destruct (body m) as [r m1]. simpl.
  destruct (__exit__ _ m1) as [[[]|x] m2] eqn:Hexit; simpl; [|discriminate].
  intros ->. split; [reflexivity|].
  exact (exit_ok_not_pending _ _ _ Hexit).
Qed.

Lemma with_transaction_returns_witness :
  fst (commit (machine_in obliging_client Pending)) = Ok tt
  /\ _state (self (snd (with_transaction commit
                          (machine_in obliging_client Pending)))) <> Pending.
Proof.
  apply (with_transaction_returns commit (machine_in obliging_client Pending) tt).
  reflexivity.
Defined.

(** X6. An exception of the body is never swallowed: the [with] block raises;
    and when the body left the transaction [Committed] or [Leaked], it is
    the body's own exception that comes out, with nothing done on exit. *)
Theorem with_transaction_reraises {A} (body : M Machine A) (m : Machine)
    (x : exn) :
  fst (body m) = Raise x ->
  is_Ok (fst (with_transaction body m)) = false
  /\ (_state (self (snd (body m))) = Committed
      \/ _state (self (snd (body m))) = Leaked ->
        with_transaction body m = (Raise x, snd (body m))).
Proof.
  unfold with_transaction. destruct (body m) as [r [t1 e1]]. simpl.
  intros ->. split.
  - destruct (__exit__ _ _) as [[[]|y] m2]; reflexivity.
  - intros Hs. rewrite exit_committed_or_leaked by done. reflexivity.
Qed.

Lemma with_transaction_reraises_witness :
  with_transaction (leak ;; add_file citation_cff None)
    (machine_in refusing_client Pending)
  = (Raise (not_pending_error "add a file to" (JNum 42) Leaked),
     mkMachine (mkDepositionTransaction refusing_client draft Leaked) empty_env).
Proof.
  apply (proj2 (with_transaction_reraises (leak ;; add_file citation_cff None)
                  (machine_in refusing_client Pending)
                  (not_pending_error "add a file to" (JNum 42) Leaked)
                  eq_refl)).
  right; reflexivity.
Defined.

(** ** Uploading a file *)

Lemma add_file_to_deposition_eq (c : Client) (link : json) (path : Path)
    (name : option string) (e : Env) :
  add_file_to_deposition c link path name e =
    let nm := default (Path_name path) name in
    let e0 := Env_log e (adding_record link path nm) in
    match files e path with
    | None => (Raise (OSError path), e0)
    | Some data =>
        match transport (_session c) (sent e) (put_request link nm data) with
        | Ok r => (Ok r, Env_log (Env_send e0 (put_request link nm data))
                           (upload_record path r))
        | Raise x => (Raise x, Env_send e0 (put_request link nm data))
        end
    end.
Proof.
  unfold add_file_to_deposition, _request, Session_request, read_bytes, bind,
    ret, log, put_request, adding_record, upload_record. simpl.
  destruct (files e path) as [data|]; [|reflexivity].
  destruct (transport _ _ _) as [r|x]; [|reflexivity].
  destruct (is_success r); reflexivity.
Qed.

Lemma add_file_pending (path : Path) (name : option string)
    (t : DepositionTransaction) (e : Env) :
  _state t = Pending ->
  add_file path name (mkMachine t e) =
    match bucket_link t with
    | Ok link =>
        (fst (add_file_to_deposition (_client t) link path name e),
         mkMachine t (snd (add_file_to_deposition (_client t) link path name e)))
    | Raise x => (Raise x, mkMachine t e)
    end.
Proof.
  intros Hs. unfold add_file, bind. rewrite _expect_pending_pending by done.
  unfold get_self, prop, in_env. simpl.
  destruct (bucket_link t); [|reflexivity].
  destruct (add_file_to_deposition _ _ _ _ _); reflexivity.
Qed.

(** X7. From [Pending], with a bucket link in the record and a readable file,
    [add_file] sends exactly one PUT of the file's bytes to
    [bucket_link/name] (the path's base name when no name is given) and
    hands back whatever the session returned or raised: a response with a
    failure status is returned, not raised, and logged as an error. The
    transaction stays as it was. *)
Theorem add_file_uploads (t : DepositionTransaction) (e : Env) (link : json)
    (path : Path) (name : option string) (data : list Byte.byte) :
  _state t = Pending -> bucket_link t = Ok link -> files e path = Some data ->
  let rq := put_request link (default (Path_name path) name) data in
  fst (add_file path name (mkMachine t e))
    = transport (_session (_client t)) (sent e) rq
  /\ self (snd (add_file path name (mkMachine t e))) = t
  /\ sent (env (snd (add_file path name (mkMachine t e)))) = sent e ++ [rq]
  /\ (forall r, transport (_session (_client t)) (sent e) rq = Ok r ->
        logged (env (snd (add_file path name (mkMachine t e))))
        = logged e ++ [adding_record link path (default (Path_name path) name);
                       upload_record path r]).
Proof.
  intros Hs Hl Hf rq. rewrite add_file_pending, Hl by done.
  rewrite add_file_to_deposition_eq, Hf. simpl. fold rq.
  destruct (transport _ _ rq) as [r|x]; simpl; repeat split; auto.
  - intros r' H; injection H as <-. rewrite <- app_assoc. reflexivity.
  - intros r' H; discriminate H.
Qed.

Lemma add_file_uploads_witness :
  fst (add_file citation_cff None
         (mkMachine (mkDepositionTransaction refusing_client draft Pending)
            env_with_citation))
  = Ok (mkResponse 403 "" (Some JNull))
  /\ sent (env (snd (add_file citation_cff None
                      (mkMachine
                         (mkDepositionTransaction refusing_client draft Pending)
                         env_with_citation))))
     = [upload_request].
Proof.
  destruct (add_file_uploads
              (mkDepositionTransaction refusing_client draft Pending)
              env_with_citation
              (JStr "https://sandbox.zenodo.org/api/files/b")
              citation_cff None [] eq_refl eq_refl eq_refl)
    as (Hr & _ & Hs & _).
  split; [rewrite Hr|rewrite Hs]; reflexivity.
Defined.

(** X8. What stops [add_file] before the upload sends nothing: a record without
    bucket link raises what the subscript raises, with nothing logged; a
    file that cannot be opened raises [OSError] after the announcing log
    record. The transaction stays [Pending] in both cases. *)
Theorem add_file_stops_early (t : DepositionTransaction) (e : Env)
    (path : Path) (name : option string) :
  _state t = Pending ->
  (forall x, bucket_link t = Raise x ->
     add_file path name (mkMachine t e) = (Raise x, mkMachine t e))
  /\ (forall link, bucket_link t = Ok link -> files e path = None ->
        add_file path name (mkMachine t e)
        = (Raise (OSError path),
           mkMachine t
             (Env_log e
                (adding_record link path (default (Path_name path) name))))).
Proof.
  intros Hs. split.
  - intros x Hl. rewrite add_file_pending, Hl by done. reflexivity.
  - intros link Hl Hf. rewrite add_file_pending, Hl by done.
    rewrite add_file_to_deposition_eq, Hf. reflexivity.
Qed.

Lemma add_file_stops_early_witness :
  add_file citation_cff None (machine_in obliging_client Pending)
  = (Raise (OSError citation_cff),
     mkMachine (mkDepositionTransaction obliging_client draft Pending)
       (Env_log empty_env
          (adding_record (JStr "https://sandbox.zenodo.org/api/files/b")
             citation_cff "CITATION.cff"))).
Proof.
  apply (proj2 (add_file_stops_early
                  (mkDepositionTransaction obliging_client draft Pending)
                  empty_env citation_cff None eq_refl)
           (JStr "https://sandbox.zenodo.org/api/files/b"));
    reflexivity.
Defined.

(** ** Starting and fetching *)

#[local] Arguments start_new_deposition : simpl never.

Lemma start_new_deposition_eq (c : Client) (md : DepositionMetadata) (e : Env) :
  start_new_deposition c md e =
    match transport (_session c) (sent e) (create_request md) with
    | Raise x => (Raise x, Env_send e (create_request md))
    | Ok r =>
        if is_success r then
          match Response_json r with
          | Raise x => (Raise x, Env_send e (create_request md))
          | Ok js =>
              match getitem js "id" with
              | Raise x => (Raise x, Env_send e (create_request md))
              | Ok i =>
                  (Ok (DepositionTransaction_init c js),
                   Env_log (Env_send e (create_request md))
                     (mkLogRecord INFO "Deposition started: %s" [AVal i]))
              end
          end
        else (Raise (HTTPStatusError (status_code r)),
              Env_send e (create_request md))
    end.
Proof.
  unfold start_new_deposition, _request, Session_request, bind, lift, ret,
    log, raise_for_status, create_request, deposition_id. simpl.
  rewrite insert_empty.
  destruct (transport _ _ _) as [r|x]; [|reflexivity]. simpl.
  destruct (is_success r); [|reflexivity].
  destruct (Response_json r) as [js|x]; [|reflexivity]. simpl.
  destruct (getitem js "id"); reflexivity.
Qed.

(** X9. A transaction returned by [start_new_deposition] is never half-formed:
    the remote end answered the create request with a success status, the
    transaction wraps exactly the body of that answer, the body has an id,
    the state is [Pending], and one request and one log record were
    added to the world. *)
Theorem start_new_deposition_result (c : Client) (md : DepositionMetadata)
    (e e' : Env) (t : DepositionTransaction) :
  start_new_deposition c md e = (Ok t, e') ->
  exists r i,
    transport (_session c) (sent e) (create_request md) = Ok r
    /\ is_success r = true
    /\ payload r = Some (_deposition_json t)
    /\ deposition_id t = Ok i
    /\ _client t = c
    /\ _state t = Pending
    /\ e' = Env_log (Env_send e (create_request md))
              (mkLogRecord INFO "Deposition started: %s" [AVal i]).
Proof.
  rewrite start_new_deposition_eq.
  destruct (transport _ _ _) as [r|x]; [|discriminate].
  destruct (is_success r) eqn:Hok; [|discriminate].
  unfold Response_json. destruct (payload r) as [js|] eqn:Hp; [|discriminate].
  destruct (getitem js "id") as [i|x] eqn:Hi; [|discriminate].
  intros H. injection H as <- <-. exists r, i. repeat split; auto.
Qed.

Lemma start_new_deposition_result_witness :
  exists r i,
    transport (_session (client_serving draft)) (sent empty_env)
      (create_request bare_metadata) = Ok r
    /\ is_success r = true
    /\ payload r
       = Some (_deposition_json
                 (DepositionTransaction_init (client_serving draft) draft))
    /\ deposition_id (DepositionTransaction_init (client_serving draft) draft)
       = Ok i
    /\ _client (DepositionTransaction_init (client_serving draft) draft)
       = client_serving draft
    /\ _state (DepositionTransaction_init (client_serving draft) draft)
       = Pending
    /\ snd (start_new_deposition (client_serving draft) bare_metadata empty_env)
       = Env_log (Env_send empty_env (create_request bare_metadata))
           (mkLogRecord INFO "Deposition started: %s" [AVal i]).
Proof.
  apply (start_new_deposition_result (client_serving draft) bare_metadata
           empty_env
           (snd (start_new_deposition (client_serving draft) bare_metadata
                   empty_env))
           (DepositionTransaction_init (client_serving draft) draft)).
  reflexivity.
Defined.

(** X10. When the create request is answered with a failure status,
    [start_new_deposition] raises [HTTPStatusError]; when it is answered
    with a success status but a body without [id], it raises what the
    subscript raises. Either way there is no transaction, nothing is
    logged, and no delete request follows the create request. *)
Theorem start_new_deposition_fails (c : Client) (md : DepositionMetadata)
    (e : Env) (r : Response) :
  transport (_session c) (sent e) (create_request md) = Ok r ->
  (is_success r = false ->
     start_new_deposition c md e
     = (Raise (HTTPStatusError (status_code r)),
        Env_send e (create_request md)))
  /\ (forall js x, is_success r = true -> payload r = Some js ->
        getitem js "id" = Raise x ->
        start_new_deposition c md e = (Raise x, Env_send e (create_request md))).
Proof.
  intros Ht. rewrite start_new_deposition_eq, Ht. split.
  - intros ->. reflexivity.
  - intros js x -> Hp Hi. unfold Response_json. rewrite Hp, Hi. reflexivity.
Qed.

Lemma start_new_deposition_fails_witness :
  start_new_deposition refusing_client bare_metadata empty_env
  = (Raise (HTTPStatusError 403),
     Env_send empty_env (create_request bare_metadata))
  /\ start_new_deposition client_without_ids bare_metadata empty_env
     = (Raise (KeyError "id"),
        Env_send empty_env (create_request bare_metadata)).
Proof.
  split.
  - apply (proj1 (start_new_deposition_fails refusing_client bare_metadata
                    empty_env (mkResponse 403 "" (Some JNull)) eq_refl)).
    reflexivity.
  - apply (proj2 (start_new_deposition_fails client_without_ids bare_metadata
                    empty_env (mkResponse 200 "OK" (Some (JObj ∅))) eq_refl)
             (JObj ∅) (KeyError "id")); reflexivity.
Defined.

Lemma get_deposition_eq (c : Client) (i : json) (e : Env) :
  get_deposition c i e =
    (match transport (_session c) (sent e) (get_request i) with
     | Raise x => Raise x
     | Ok r => if is_success r then Response_json r
               else Raise (HTTPStatusError (status_code r))
     end, Env_send e (get_request i)).
Proof.
  unfold get_deposition, _request, Session_request, bind, lift,
    raise_for_status, get_request. simpl.
  destruct (transport _ _ _) as [r|x]; [|reflexivity]. simpl.
  destruct (is_success r); [|reflexivity]. simpl.
  destruct (Response_json r); reflexivity.
Qed.

(** X11. A fetch returns a record exactly when the remote end answered the GET
    with a success status and that record as body. Whatever the outcome,
    the fetch has sent that one GET, without body or extra headers, and
    logged nothing. The same holds for the listing. *)
Theorem fetch_outcome (c : Client) (i : json) (e : Env) (d : json) :
  snd (get_deposition c i e) = Env_send e (get_request i)
  /\ (fst (get_deposition c i e) = Ok d <->
      exists r, transport (_session c) (sent e) (get_request i) = Ok r
                /\ is_success r = true /\ payload r = Some d)
  /\ snd (get_depositions c e) = Env_send e list_request
  /\ (fst (get_depositions c e) = Ok d <->
      exists r, transport (_session c) (sent e) list_request = Ok r
                /\ is_success r = true /\ payload r = Some d).
Proof.
  assert (forall res : result Response,
            match res with
            | Raise x => Raise x
            | Ok r => if is_success r then Response_json r
                      else Raise (HTTPStatusError (status_code r))
            end = Ok d <->
            exists r, res = Ok r /\ is_success r = true /\ payload r = Some d)
    as Hinv.
  { intros [r|x]; split.
    - destruct (is_success r) eqn:Hok; [|discriminate].
      unfold Response_json.
      destruct (payload r) as [v|] eqn:Hp; [|discriminate].
      intros H; injection H as ->. exists r. auto.
    - intros (r' & Hr & Hok & Hp). injection Hr as <-.
      rewrite Hok. unfold Response_json. rewrite Hp. reflexivity.
    - discriminate.
    - intros (r' & Hr & _). discriminate. }
  assert (get_depositions c e
          = (match transport (_session c) (sent e) list_request with
             | Raise x => Raise x
             | Ok r => if is_success r then Response_json r
                       else Raise (HTTPStatusError (status_code r))
             end, Env_send e list_request)) as Hlist.
  { unfold get_depositions, _request, Session_request, bind, lift,
      raise_for_status, list_request. simpl.
    destruct (transport _ _ _) as [r|x]; [|reflexivity]. simpl.
    destruct (is_success r); [|reflexivity]. simpl.
    destruct (Response_json r); reflexivity. }
  rewrite get_deposition_eq, Hlist. simpl.
  split; [reflexivity|]. split; [apply Hinv|].
  split; [reflexivity|apply Hinv].
Qed.

(** ** Resuming: edge cases *)

(** X12. [continue_deposition] decides on truthiness and short-circuits: any
    truthy [submitted] refuses the record without looking at [state]. A
    record without [submitted], or with a falsy [submitted] and no
    [state], raises what the subscript raises; a record that passes the
    test but has no [id] does so too. No transaction is created in any of
    these cases and nothing is logged. *)
Theorem continue_deposition_edges (c : Client) (i : json) (e e' : Env)
    (d : json) :
  get_deposition c i e = (Ok d, e') ->
  (forall sub, getitem d "submitted" = Ok sub -> truthy sub = true ->
     continue_deposition c i e = (Raise (not_in_progress_error i), e'))
  /\ (forall x, getitem d "submitted" = Raise x ->
        continue_deposition c i e = (Raise x, e'))
  /\ (forall sub x, getitem d "submitted" = Ok sub -> truthy sub = false ->
        getitem d "state" = Raise x ->
        continue_deposition c i e = (Raise x, e'))
  /\ (forall sub st x, getitem d "submitted" = Ok sub -> truthy sub = false ->
        getitem d "state" = Ok st -> in_strs st ["done"; "error"] = false ->
        getitem d "id" = Raise x ->
        continue_deposition c i e = (Raise x, e')).
Proof.
  intros Hget.
  assert (continue_deposition c i e =
            match getitem d "submitted" with
            | Raise x => (Raise x, e')
            | Ok sub =>
                if truthy sub then (Raise (not_in_progress_error i), e')
                else match getitem d "state" with
                     | Raise x => (Raise x, e')
                     | Ok st =>
                         if in_strs st ["done"; "error"]
                         then (Raise (not_in_progress_error i), e')
                         else match getitem d "id" with
                              | Raise x => (Raise x, e')
                              | Ok i' =>
                                  (Ok (DepositionTransaction_init c d),
                                   Env_log e'
                                     (mkLogRecord INFO
                                        "Continuing deposition %s" [AVal i']))
                              end
                     end
            end) as Heq.
  { unfold continue_deposition, bind at 1. rewrite Hget.
    unfold bind, lift, ret, raise, log, deposition_id. simpl.
    destruct (getitem d "submitted") as [sub|x]; [|reflexivity].
    destruct (truthy sub); [reflexivity|].
    destruct (getitem d "state") as [st|x]; [|reflexivity].
    destruct (in_strs st _); [reflexivity|].
    destruct (getitem d "id"); reflexivity. }
  rewrite Heq. repeat split.
  - intros sub -> ->. reflexivity.
  - intros x ->. reflexivity.
  - intros sub x -> -> ->. reflexivity.
  - intros sub st x -> -> -> -> ->. reflexivity.
Qed.

Lemma continue_deposition_edges_witness :
  continue_deposition (client_serving odd_record) (JNum 7) empty_env
  = (Raise (not_in_progress_error (JNum 7)),
     Env_send empty_env (get_request (JNum 7)))
  /\ continue_deposition client_without_ids (JNum 7) empty_env
     = (Raise (KeyError "submitted"), Env_send empty_env (get_request (JNum 7))).
Proof.
  split.
  - apply (proj1 (continue_deposition_edges (client_serving odd_record)
                    (JNum 7) empty_env
                    (Env_send empty_env (get_request (JNum 7)))
                    odd_record eq_refl) (JStr "yes")); reflexivity.
  - apply (proj1 (proj2 (continue_deposition_edges client_without_ids
                           (JNum 7) empty_env
                           (Env_send empty_env (get_request (JNum 7)))
                           (JObj ∅) eq_refl)) (KeyError "submitted")).
    reflexivity.
Defined.

(** X13. Resuming only reads: whatever the remote end answers and whatever the
    outcome, [continue_deposition] sends exactly one request, the GET of
    the deposition. *)
Theorem continue_deposition_only_fetches (c : Client) (i : json) (e : Env) :
  sent (snd (continue_deposition c i e)) = sent e ++ [get_request i].
Proof.
  unfold continue_deposition, bind at 1. rewrite get_deposition_eq.
  destruct (transport _ _ _) as [r|x]; [|reflexivity].
  destruct (is_success r); [|reflexivity].
  destruct (Response_json r) as [d|x]; [|reflexivity].
  unfold bind, lift, ret, raise, log.
  destruct (getitem d "submitted") as [sub|x]; [|reflexivity].
  destruct (truthy sub); [reflexivity|].
  destruct (getitem d "state") as [st|x]; [|reflexivity].
  destruct (in_strs st _); [reflexivity|].
  destruct (deposition_id _); reflexivity.
Qed.

(** ** What a transaction may send *)

Lemma own_request_record (t t' : DepositionTransaction) (rq : Request) :
  _deposition_json t' = _deposition_json t ->
  own_request t rq -> own_request t' rq.
Proof.
  unfold own_request, deposition_id, bucket_link. intros ->. auto.
Qed.

Lemma prefix_app_more {A} (l k1 k2 : list A) :
  l `prefix_of` k1 -> l `prefix_of` k1 ++ k2.
Proof. intros H. etrans; [exact H|]. apply prefix_app_r. reflexivity. Qed.

Ltac settle_step :=
  simpl; repeat split;
  first [ reflexivity
        | left; reflexivity
        | repeat apply prefix_app_more; reflexivity
        | idtac ].

Lemma commit_one_step (t : DepositionTransaction) (e : Env) :
  one_step t e (env (snd (commit (mkMachine t e)))).
Proof.
  destruct (decide (_state t = Pending)) as [Hs|Hs];
    destruct (deposition_id t) as [i|x] eqn:Hi.
  - rewrite (commit_pending t e i) by done. rewrite commit_deposition_eq.
    assert (own_request t (publish_request i)) as Hown
      by (left; exists i; auto).
    destruct (transport _ _ _) as [r|x]; [destruct (is_success r)|];
      settle_step; right; eauto.
  - unfold commit. method_body. rewrite Hs. simpl. rewrite Hi. settle_step.
  - rewrite (commit_not_pending t e i) by done. settle_step.
  - unfold commit. method_body. rewrite bool_decide_eq_false_2 by done.
    simpl. rewrite Hi. settle_step.
Qed.

Lemma abort_one_step (t : DepositionTransaction) (e : Env) :
  one_step t e (env (snd (abort (mkMachine t e)))).
Proof.
  destruct (deposition_id t) as [i|x] eqn:Hi.
  - assert (own_request t (delete_request i)) as Hown
      by (left; exists i; auto).
    destruct (_state t) eqn:Hs.
    + rewrite (abort_proceeds t e i) by auto. unfold committed.
      rewrite bool_decide_eq_false_2 by (rewrite Hs; done). simpl.
      rewrite abort_deposition_eq.
      destruct (transport _ _ _) as [r|x]; [destruct (is_success r)|];
        settle_step; right; eauto.
    + rewrite (abort_proceeds t e i) by auto. unfold committed.
      rewrite bool_decide_eq_true_2 by done. simpl.
      rewrite abort_deposition_eq. simpl.
      destruct (transport _ _ _) as [r|x]; [destruct (is_success r)|];
        settle_step; right; eauto.
    + rewrite (abort_declines t e i) by auto. settle_step.
    + rewrite (abort_declines t e i) by auto. settle_step.
  - unfold abort. method_body. destruct (_state t); simpl; rewrite Hi;
      settle_step.
Qed.

Lemma leak_one_step (t : DepositionTransaction) (e : Env) :
  one_step t e (env (snd (leak (mkMachine t e)))).
Proof.
  destruct (decide (_state t = Pending)) as [Hs|Hs].
  - rewrite leak_pending by done. settle_step.
  - destruct (leak_not_pending t e Hs) as [-> _]. settle_step.
Qed.

Lemma add_file_one_step (path : Path) (name : option string)
    (t : DepositionTransaction) (e : Env) :
  one_step t e (env (snd (add_file path name (mkMachine t e)))).
Proof.
  destruct (decide (_state t = Pending)) as [Hs|Hs].
  - rewrite add_file_pending by done.
    destruct (bucket_link t) as [link|x] eqn:Hl; [|settle_step].
    rewrite add_file_to_deposition_eq. simpl.
    destruct (files e path) as [data|]; [|settle_step].
    assert (own_request t (put_request link (default (Path_name path) name)
                             data)) as Hown
      by (right; eauto).
    destruct (transport _ _ _) as [r|x]; settle_step; right; eauto.
  - destruct (add_file_not_pending path name t e Hs) as (x & -> & _).
    settle_step.
Qed.

Lemma run_op_one_step (o : Op) (m : Machine) :
  one_step (self m) (env m) (env (snd (run_op o m))).
Proof.
  destruct m as [t e]. destruct o as [| | |p n]; simpl.
  - apply commit_one_step.
  - apply abort_one_step.
  - apply leak_one_step.
  - pose proof (add_file_one_step p n t e) as H. unfold bind, ret.
    destruct (add_file p n _) as [[r|x] m']; exact H.
Qed.

(** X14. Whatever is called on a transaction, in whatever order, every request
    that goes out is its own: the publish or the delete of its deposition
    id, or a PUT into its bucket. Requests and log records are only ever
    added, never rewritten, and the files are not touched. *)
Theorem exec_footprint (ops : list Op) (m : Machine) :
  (exists rs, sent (env (exec ops m)) = sent (env m) ++ rs
              /\ Forall (own_request (self m)) rs
              /\ (length rs <= length ops)%nat)
  /\ logged (env m) `prefix_of` logged (env (exec ops m))
  /\ files (env (exec ops m)) = files (env m).
Proof.
  revert m. induction ops as [|o ops IH]; intros m; simpl.
  - split; [|split; reflexivity].
    exists []. rewrite app_nil_r. repeat split; auto.
  - destruct (run_op_one_step o m) as (Hsent & Hlog & Hfiles).
    destruct (run_op_transition o m) as (_ & Hjson & _). simpl in Hjson.
    destruct (IH (snd (run_op o m))) as ((rs & Hrs & Hown & Hlen) & Hlog' & Hfiles').
    assert (Forall (own_request (self m)) rs) as Hown'.
    { eapply Forall_impl; [exact Hown|]. intros rq.
      apply own_request_record. symmetry. exact Hjson. }
    split; [|split].
    + destruct Hsent as [Hsame|(rq & Hrq & Hmore)].
      * exists rs. rewrite Hrs, Hsame. repeat split; auto.
      * exists (rq :: rs). rewrite Hrs, Hmore, <- app_assoc.
        repeat split; auto. simpl. lia.
    + etrans; eassumption.
    + congruence.
Qed.

(** ** The body determines the metadata *)

Lemma Person_dump_lookup (p : Person) :
  model_dump true p !! "name" = Some (JStr (name p))
  /\ model_dump true p !! "affiliation" = JStr <$> affiliation p
  /\ model_dump true p !! "orcid" = JStr <$> orcid p.
Proof.
  cbn [model_dump Person_model]. unfold dump_optional.
  destruct (affiliation p), (orcid p); repeat split; by simplify_map_eq.
Qed.

Lemma JStr_fmap_inj (a b : option string) : JStr <$> a = JStr <$> b -> a = b.
Proof. destruct a, b; simpl; intros H; congruence. Qed.

Lemma Person_dump_inj (p q : Person) :
  model_dump true p = model_dump true q -> p = q.
Proof.
  intros H.
  destruct (Person_dump_lookup p) as (Hn & Ha & Ho).
  destruct (Person_dump_lookup q) as (Hn' & Ha' & Ho').
  rewrite H in Hn, Ha, Ho.
  rewrite Hn in Hn'. rewrite Ha in Ha'. rewrite Ho in Ho'.
  apply JStr_fmap_inj in Ha', Ho'.
  destruct p, q; simpl in *. congruence.
Qed.

Lemma creators_dump_inj (l k : list Person) :
  (fun p => JObj (model_dump true p)) <$> l
  = (fun p => JObj (model_dump true p)) <$> k ->
  l = k.
Proof.
  revert k. induction l as [|p l IH]; intros [|q k] H; simpl in H;
    try discriminate; [reflexivity|].
  injection H as Hp Hl. f_equal; [apply Person_dump_inj; exact Hp|auto].
Qed.

Lemma metadata_dump_lookup (md : DepositionMetadata) :
  model_dump true md !! "upload_type" = Some (JStr (upload_type md))
  /\ model_dump true md !! "title" = Some (JStr (title md))
  /\ model_dump true md !! "description" = Some (JStr (description md))
  /\ model_dump true md !! "creators"
     = Some (JArr ((fun p => JObj (model_dump true p)) <$> creators md))
  /\ model_dump true md !! "access_right" = Some (JStr (access_right md))
  /\ model_dump true md !! "license" = Some (JStr (license md))
  /\ model_dump true md !! "version" = Some (JStr (version md))
  /\ model_dump true md !! "doi" = JStr <$> doi md
  /\ model_dump true md !! "prereserve_doi"
     = Some (JBool (prereserve_doi md)).
Proof.
  cbn [model_dump DepositionMetadata_model]. unfold dump_optional.
  destruct (doi md); repeat split; by simplify_map_eq.
Qed.

(** X15. Leaving out the [None] fields loses nothing: two metadata objects (and
    two creators) with the same request body have the same value in every
    field. Only the set of fields that were passed to the constructor
    cannot be read back from the body. *)
Theorem body_determines_metadata (md md' : DepositionMetadata) :
  model_dump_json true (mkDeposition md) = model_dump_json true (mkDeposition md') ->
  upload_type md = upload_type md'
  /\ title md = title md'
  /\ description md = description md'
  /\ creators md = creators md'
  /\ access_right md = access_right md'
  /\ license md = license md'
  /\ version md = version md'
  /\ doi md = doi md'
  /\ prereserve_doi md = prereserve_doi md'.
Proof.
  unfold model_dump_json. intros H.
  assert (model_dump true md = model_dump true md') as Heq.
  { assert (({["metadata" := JObj (model_dump true md)]} : gmap string json)
            = {["metadata" := JObj (model_dump true md')]}) as Hm
      by exact (f_equal (fun v => match v with JObj m => m | _ => ∅ end) H).
    assert (Some (JObj (model_dump true md)) = Some (JObj (model_dump true md')))
      as Hs; [|congruence].
    rewrite <- (lookup_singleton_eq (M := gmap string) "metadata"
                  (JObj (model_dump true md))), Hm.
    apply lookup_singleton_eq. }
  destruct (metadata_dump_lookup md)
    as (H1 & H2 & H3 & H4 & H5 & H6 & H7 & H8 & H9).
  destruct (metadata_dump_lookup md')
    as (H1' & H2' & H3' & H4' & H5' & H6' & H7' & H8' & H9').
  rewrite Heq in H1, H2, H3, H4, H5, H6, H7, H8, H9.
  rewrite H1 in H1'. rewrite H2 in H2'. rewrite H3 in H3'. rewrite H4 in H4'.
  rewrite H5 in H5'. rewrite H6 in H6'. rewrite H7 in H7'. rewrite H8 in H8'.
  rewrite H9 in H9'.
  apply JStr_fmap_inj in H8'.
  injection H4' as H4'. apply creators_dump_inj in H4'.
  repeat split; congruence.
Qed.

Lemma body_determines_metadata_witness :
  doi bare_metadata
  = doi (DepositionMetadata_init "software" "" "Testing uploading to Zenodo"
           [anonymous] "open" "BSD-3-Clause" "0.3" None (Some false))
  /\ metadata_fields_set bare_metadata
     <> metadata_fields_set
          (DepositionMetadata_init "software" "" "Testing uploading to Zenodo"
             [anonymous] "open" "BSD-3-Clause" "0.3" None (Some false)).
Proof.
  split.
  - apply (body_determines_metadata bare_metadata
             (DepositionMetadata_init "software" ""
                "Testing uploading to Zenodo" [anonymous] "open"
                "BSD-3-Clause" "0.3" None (Some false))).
    reflexivity.
  - intros H. apply (f_equal (fun s => bool_decide ("doi" ∈ s))) in H.
    vm_compute in H. discriminate H.
Defined.

(** ** The blocks of [main] *)

#[local] Arguments continue_deposition : simpl never.
#[local] Arguments reserved_deposition_doi : simpl never.
#[local] Arguments put_request : simpl never.

Lemma with_new_created {A} (create : M Env DepositionTransaction)
    (body : M Machine A) (e e1 : Env) (t : DepositionTransaction) :
  create e = (Ok t, e1) ->
  with_new create body e
  = (fst (with_transaction body (mkMachine t e1)),
     env (snd (with_transaction body (mkMachine t e1)))).
Proof.
  intros H. unfold with_new. rewrite H.
  destruct (with_transaction _ _); reflexivity.
Qed.

Lemma with_transaction_raised_pending {A} (body : M Machine A) (m : Machine)
    (t : DepositionTransaction) (e1 : Env) (i : json) (x : exn) :
  body m = (Raise x, mkMachine t e1) ->
  _state t = Pending -> deposition_id t = Ok i ->
  with_transaction body m
  = match abort_deposition (_client t) i e1 with
    | (Ok _, e2) => (Raise x, mkMachine (with_state t Aborted) e2)
    | (Raise y, e2) => (Raise y, mkMachine t e2)
    end.
Proof.
  intros Hbody Hs Hi. unfold with_transaction. rewrite Hbody.
  rewrite exit_pending by done. rewrite (abort_proceeds t e1 i) by auto.
  unfold committed. rewrite bool_decide_eq_false_2 by (rewrite Hs; done).
  simpl. remote_outcome; reflexivity.
Qed.

Lemma with_transaction_leaked {A} (body : M Machine A) (m : Machine)
    (t : DepositionTransaction) (e1 : Env) (r : result A) :
  body m = (r, mkMachine t e1) -> _state t = Leaked ->
  with_transaction body m = (r, mkMachine t e1).
Proof.
  intros Hbody Hs. unfold with_transaction. rewrite Hbody.
  rewrite exit_committed_or_leaked by auto. reflexivity.
Qed.

(** X16. When the first block of [main] returns, it has sent the create request
    and nothing else (the leak keeps the exit from aborting), and the two
    values it yields are the reserved DOI and the id found in the body of
    the remote end's answer. *)
Theorem main_reserve_returns (client : Client) (e e' : Env) (doi i : json) :
  main_reserve client e = (Ok (doi, i), e') ->
  exists r js,
    transport (_session client) (sent e) (create_request main_depo) = Ok r
    /\ is_success r = true
    /\ payload r = Some js
    /\ getitem js "id" = Ok i
    /\ reserved_deposition_doi (DepositionTransaction_init client js) = Ok doi
    /\ sent e' = sent e ++ [create_request main_depo]
    /\ abort_calls e' = abort_calls e.
Proof.
  unfold main_reserve, with_new.
  destruct (start_new_deposition client main_depo e) as [[t|x] e1] eqn:Hstart;
    [|discriminate].
  destruct (start_new_deposition_pending _ _ _ _ _ Hstart) as (Hs & _ & _).
  rewrite start_new_deposition_eq in Hstart.
  destruct (transport _ _ _) as [r|x]; [|discriminate].
  destruct (is_success r) eqn:Hok; [|discriminate].
  unfold Response_json in Hstart.
  destruct (payload r) as [js|] eqn:Hp; [|discriminate].
  destruct (getitem js "id") as [i'|x] eqn:Hi; [|discriminate].
  injection Hstart as <- <-.
  unfold with_transaction, bind at 1, prop at 1. simpl.
  destruct (reserved_deposition_doi _) as [doi'|x] eqn:Hdoi.
  - unfold bind at 1, prop at 1. simpl. unfold deposition_id. simpl.
    rewrite Hi. unfold bind at 1. rewrite leak_pending by done.
    unfold ret. rewrite exit_committed_or_leaked by (right; reflexivity).
    intros H. injection H as <- <- <-. exists r, js.
    repeat split; auto.
    unfold abort_calls. simpl. rewrite List.filter_app. simpl.
    rewrite app_nil_r. reflexivity.
  - destruct (__exit__ _ _) as [[[]|y] m2]; discriminate.
Qed.

Lemma main_reserve_returns_witness :
  exists r js,
    transport (_session (client_serving draft)) [] (create_request main_depo)
      = Ok r
    /\ is_success r = true
    /\ payload r = Some js
    /\ getitem js "id" = Ok (JNum 42)
    /\ reserved_deposition_doi
         (DepositionTransaction_init (client_serving draft) js)
       = Ok (JStr "10.5281/zenodo.123")
    /\ sent (snd (main_reserve (client_serving draft) empty_env))
       = [create_request main_depo]
    /\ abort_calls (snd (main_reserve (client_serving draft) empty_env)) = 0%nat.
Proof.
  apply (main_reserve_returns (client_serving draft) empty_env
           (snd (main_reserve (client_serving draft) empty_env))
           (JStr "10.5281/zenodo.123") (JNum 42)).
  reflexivity.
Defined.

(** X17. When the draft was created but its record has no readable reserved
    DOI, the first block of [main] does not leave it behind: it sends the
    delete request for the new id on the way out, and raises. *)
Theorem main_reserve_cleans_up (client : Client) (e e1 : Env)
    (t : DepositionTransaction) (i : json) (x : exn) :
  start_new_deposition client main_depo e = (Ok t, e1) ->
  deposition_id t = Ok i ->
  reserved_deposition_doi t = Raise x ->
  sent (snd (main_reserve client e)) = sent e1 ++ [delete_request i]
  /\ is_Ok (fst (main_reserve client e)) = false
  /\ (forall e2, abort_deposition (_client t) i e1 = (Ok tt, e2) ->
        main_reserve client e = (Raise x, e2)).
Proof.
  intros Hstart Hi Hdoi.
  destruct (start_new_deposition_pending _ _ _ _ _ Hstart) as (Hs & _ & _).
  unfold main_reserve. rewrite (with_new_created _ _ e e1 t Hstart).
  rewrite (with_transaction_raised_pending _ _ t e1 i x); auto.
  - pose proof (abort_deposition_sent (_client t) i e1) as Hsent.
    destruct (abort_deposition _ _ _) as [[[]|y] e2]; simpl in *;
      repeat split; auto; intros e3 H; congruence.
  - unfold bind, prop. simpl. rewrite Hdoi. reflexivity.
Qed.

Lemma main_reserve_cleans_up_witness :
  main_reserve client_with_bare_ids empty_env
  = (Raise (KeyError "metadata"),
     Env_log
       (Env_send
          (Env_log (Env_send empty_env (create_request main_depo))
             (mkLogRecord INFO "Deposition started: %s" [AVal (JNum 42)]))
          (delete_request (JNum 42)))
       (mkLogRecord WARNING "Deposition aborted: %s" [AVal (JNum 42)])).
Proof.
  assert (reserved_deposition_doi
            (DepositionTransaction_init client_with_bare_ids
               (JObj {["id" := JNum 42]}))
          = Raise (KeyError "metadata")) as Hdoi by reflexivity.
  apply (proj2 (proj2 (main_reserve_cleans_up client_with_bare_ids empty_env
                         (Env_log
                            (Env_send empty_env (create_request main_depo))
                            (mkLogRecord INFO "Deposition started: %s"
                               [AVal (JNum 42)]))
                         (DepositionTransaction_init client_with_bare_ids
                            (JObj {["id" := JNum 42]}))
                         (JNum 42) (KeyError "metadata")
                         eq_refl eq_refl Hdoi))).
  reflexivity.
Defined.

(** X18. The second block of [main], once the deposition is resumed and
    [CITATION.cff] can be read: when the upload is answered with a success
    status the block sends the PUT only and returns; when it is answered
    with a failure status the block raises, and on the way out sends the
    delete request for the deposition. No publish request is sent either
    way. *)
Theorem main_upload_outcome (client : Client) (depo_id : json) (e e1 : Env)
    (t : DepositionTransaction) (i link : json) (data : list Byte.byte)
    (r : Response) :
  continue_deposition client depo_id e = (Ok t, e1) ->
  deposition_id t = Ok i ->
  bucket_link t = Ok link ->
  files e1 (mkPath ["CITATION.cff"]) = Some data ->
  transport (_session (_client t)) (sent e1)
    (put_request link "CITATION.cff" data) = Ok r ->
  (is_success r = true ->
     fst (main_upload client depo_id e) = Ok tt
     /\ sent (snd (main_upload client depo_id e))
        = sent e1 ++ [put_request link "CITATION.cff" data])
  /\ (is_success r = false ->
        is_Ok (fst (main_upload client depo_id e)) = false
        /\ sent (snd (main_upload client depo_id e))
           = sent e1 ++ [put_request link "CITATION.cff" data;
                         delete_request i]).
Proof.
  intros Hcont Hi Hl Hf Ht.
  destruct (continue_deposition_pending _ _ _ _ _ Hcont) as (Hs & _ & _).
  unfold main_upload. rewrite (with_new_created _ _ e e1 t Hcont).
  set (rq := put_request link "CITATION.cff" data) in *.
  set (e2 := Env_log
               (Env_send
                  (Env_log e1 (adding_record link (mkPath ["CITATION.cff"])
                                 "CITATION.cff")) rq)
               (upload_record (mkPath ["CITATION.cff"]) r)).
  assert (add_file (mkPath ["CITATION.cff"]) None (mkMachine t e1)
          = (Ok r, mkMachine t e2)) as Hadd.
  { rewrite add_file_pending, Hl by done.
    rewrite add_file_to_deposition_eq, Hf. simpl.
    change (Path_name (mkPath ["CITATION.cff"])) with "CITATION.cff".
    fold rq. rewrite Ht.
    reflexivity. }
  split; intros Hok.
  - rewrite (with_transaction_leaked _ _ (with_state t Leaked) e2 (Ok tt));
      [auto| |reflexivity].
    unfold bind at 1. rewrite Hadd. unfold bind, lift, raise_for_status.
    rewrite Hok. apply leak_pending. exact Hs.
  - rewrite (with_transaction_raised_pending _ _ t e2 i
               (HTTPStatusError (status_code r))); auto.
    + pose proof (abort_deposition_sent (_client t) i e2) as Hsent.
      destruct (abort_deposition _ _ _) as [[[]|y] e3]; simpl in *;
        rewrite Hsent, <- app_assoc; auto.
    + unfold bind at 1. rewrite Hadd. unfold bind, lift, raise_for_status.
      rewrite Hok. reflexivity.
Qed.

Lemma main_upload_outcome_witness :
  is_Ok (fst (main_upload (Client_init true "" full_storage) (JNum 42)
                env_with_citation)) = false
  /\ sent (snd (main_upload (Client_init true "" full_storage) (JNum 42)
                  env_with_citation))
     = [get_request (JNum 42); upload_request; delete_request (JNum 42)].
Proof.
  apply (proj2 (main_upload_outcome (Client_init true "" full_storage)
                  (JNum 42) env_with_citation
                  (Env_log (Env_send env_with_citation (get_request (JNum 42)))
                     (mkLogRecord INFO "Continuing deposition %s"
                        [AVal (JNum 42)]))
                  (DepositionTransaction_init (Client_init true "" full_storage)
                     draft)
                  (JNum 42) (JStr "https://sandbox.zenodo.org/api/files/b")
                  [] (mkResponse 507 "Insufficient Storage" None)
                  eq_refl eq_refl eq_refl eq_refl eq_refl)).
  reflexivity.
Defined.

(** ** Where a state comes from *)

(** X19. The state only changes through the call that names it: after any
    sequence of operations the state is the one the transaction started
    in, or it is [Committed] and [commit] was among the calls, or
    [Aborted] and [abort] was, or [Leaked] and [leak] was. The state never
    returns to [Pending], and [add_file] never changes it. *)
Theorem exec_state_cause (ops : list Op) (m : Machine) :
  _state (self (exec ops m)) = _state (self m)
  \/ (_state (self (exec ops m)) = Committed /\ OpCommit ∈ ops)
  \/ (_state (self (exec ops m)) = Aborted /\ OpAbort ∈ ops)
  \/ (_state (self (exec ops m)) = Leaked /\ OpLeak ∈ ops).
Proof.
  revert m. induction ops as [|o ops IH]; intros m; simpl; [auto|].
  destruct (run_op_transition o m) as (_ & _ & Hstep). simpl in Hstep.
  specialize (IH (snd (run_op o m))).
  assert (forall o' : Op, o' ∈ ops -> o' ∈ o :: ops) as Hin
    by (intros o' H; apply elem_of_cons; auto).
  assert (o ∈ o :: ops) as Hhead by (apply elem_of_cons; auto).
  destruct IH as [Hsame|[[Hc Hi]|[[Ha Hi]|[Hl Hi]]]]; auto 6.
  rewrite Hsame. destruct Hstep as [Hkeep|Hmove]; [auto|].
  inversion Hmove; subst; auto 6.
Qed.
